(** * roop: the orchestration core ([roop/core.py])

    A shallow embedding of [roop/core.py] and the properties of its
    control flow: execution-provider resolution, argument defaults,
    preflight, the image and the video pipeline, cleanup and interruption.

    The helpers of [roop.utilities], the frame processor modules, argparse,
    onnxruntime, tensorflow and the operating system are collaborators of
    this file: they appear as the fields of a [World], and every call to one
    of them is recorded as an [Event] together with the value it returned. *)

From Stdlib Require Import String Ascii List ZArith QArith Bool Lia.
From stdpp Require Import base list.
Import ListNotations.
Local Open Scope string_scope.
Local Open Scope list_scope.

(** ** Python string operations used by the provider codec *)

(** [c.lower()] on one ASCII character. *)
Definition lower_ascii (c : ascii) : ascii :=
  let n := nat_of_ascii c in
  if (Nat.leb 65 n && Nat.leb n 90)%bool then ascii_of_nat (n + 32) else c.

(** [s.lower()]; provider names are ASCII identifiers. *)
Fixpoint lower (s : string) : string :=
  match s with
  | EmptyString => EmptyString
  | String c s' => String (lower_ascii c) (lower s')
  end.

(** [s.replace("", new)]: [new] before every character and at the end. *)
Fixpoint interleave (new s : string) : string :=
  match s with
  | EmptyString => new
  | String c s' => new ++ String c (interleave new s')
  end.

(** [s.replace(old, new)] for a non-empty [old]: a left-to-right scan that
    replaces every non-overlapping occurrence; [skip] counts the characters
    of the occurrence just replaced that are still to be dropped. *)
Fixpoint replace_from (old new : string) (skip : nat) (s : string) : string :=
  match s with
  | EmptyString => EmptyString
  | String c s' =>
      match skip with
      | S k => replace_from old new k s'
      | O =>
          if String.prefix old s
          then new ++ replace_from old new (String.length old - 1) s'
          else String c (replace_from old new 0 s')
      end
  end.

Definition replace (old new s : string) : string :=
  match old with
  | EmptyString => interleave new s
  | _ => replace_from old new 0 s
  end.

(** [needle in hay] on strings. *)
Fixpoint contains (needle hay : string) : bool :=
  match hay with
  | EmptyString => String.prefix needle EmptyString
  | String _ hay' => String.prefix needle hay || contains needle hay'
  end.

(** ** Execution providers (core.py, lines 77-97) *)

Definition encode_execution_providers (execution_providers : list string) : list string :=
  map (fun execution_provider => lower (replace "ExecutionProvider" "" execution_provider))
      execution_providers.

(** [available] is what [onnxruntime.get_available_providers()] returns. *)
Definition decode_execution_providers (available execution_providers : list string)
  : list string :=
  map fst
    (List.filter
       (fun pe : string * string =>
          existsb (fun execution_provider => contains execution_provider (snd pe))
                  execution_providers)
       (combine available (encode_execution_providers available))).

Definition suggest_execution_providers (available : list string) : list string :=
  encode_execution_providers available.

Definition suggest_execution_thread_count (available : list string) : Z :=
  if existsb (String.eqb "CUDAExecutionProvider") available then 4%Z else 1%Z.

(** ** Values and events *)

(** A path setting is [None] or a [str]. *)
Definition Path := option string.

(** Python truthiness of a path setting: [None] and [''] are false. *)
Definition truthy (p : Path) : bool :=
  match p with
  | Some s => negb (String.eqb s "")
  | None => false
  end.

(** The number [detect_fps] returns. *)
Definition Fps := Q.

(** One call to a collaborator, with its arguments and, for a call that
    answers, the answer.  [EvExtractFrames] and [EvCreateVideo] carry
    [None] for the frame rate when the source omits the argument (the
    helper's own default of 30 then applies). *)
Inductive Event : Type :=
| EvSignal                                          (* signal.signal(SIGINT, ...) *)
| EvNormalizeOutputPath (source target output result : Path)
| EvPrint (line : string)                           (* print(...) *)
| EvWhich (cmd : string) (result : option string)   (* shutil.which *)
| EvPreCheck (name : string) (result : bool)        (* module.pre_check() *)
| EvListPhysicalDevices (kind : string) (result : list string)
| EvSetVirtualDeviceConfiguration (gpu : string) (memory_limit : Z)
| EvSetProcessWorkingSetSize (process min max : Z)
| EvSetrlimit (soft hard : Z)                       (* RLIMIT_DATA *)
| EvPreStart (name : string) (result : bool)        (* module.pre_start() *)
| EvHasImageExtension (path : Path) (result : bool)
| EvCopy2 (src dst : Path)                          (* shutil.copy2 *)
| EvProcessImage (name : string) (source target output : Path)
| EvProcessVideo (name : string) (source : Path) (temp_frame_paths : list string)
| EvPostProcess (name : string)
| EvIsImage (path : Path) (result : bool)
| EvIsVideo (path : Path) (result : bool)
| EvCreateTemp (target : Path)
| EvDetectFps (target : Path) (result : Fps)
| EvExtractFrames (target : Path) (fps : option Fps)
| EvGetTempFramePaths (target : Path) (result : list string)
| EvCreateVideo (target : Path) (fps : option Fps) (result : bool)
| EvMoveTemp (target output : Path)
| EvRestoreAudio (target output : Path)
| EvCleanTemp (target : Path)
| EvUiInit.                                         (* roop.uis.core.init() *)

(** What has happened so far; a collaborator may answer from it. *)
Definition History := list Event.

(** ** Collaborators *)

(** A frame processor module, as [core.py] uses it: its [NAME] and the two
    readiness checks.  [process_image], [process_video] and [post_process]
    return nothing and appear only as events. *)
Module FrameProcessor.

Record t : Type := {
  NAME : string;
  pre_check : History -> bool;
  pre_start : History -> bool
}.

End FrameProcessor.

(** What [argparse] read from the argument vector: for an option with a
    value, the value when the option was given; for a [store_true] flag,
    whether the flag was given.  Conversions ([type=int], [type=float])
    are argparse's. *)
Record CommandLine : Type := {
  cl_source_path : option string;
  cl_target_path : option string;
  cl_output_path : option string;
  cl_frame_processors : option (list string);
  cl_ui_layouts : option (list string);
  cl_keep_fps : bool;
  cl_keep_temp : bool;
  cl_skip_audio : bool;
  cl_many_faces : bool;
  cl_reference_face_position : option Z;
  cl_reference_frame_number : option Z;
  cl_similar_face_distance : option Q;
  cl_temp_frame_format : option string;
  cl_temp_frame_quality : option Z;
  cl_output_video_encoder : option string;
  cl_output_video_quality : option Z;
  cl_max_memory : option Z;
  cl_execution_providers : option (list string);
  cl_execution_thread_count : option Z;
  cl_execution_queue_count : option Z
}.

(** Everything [core.py] calls and does not define. *)
Record World : Type := {
  (* onnxruntime.get_available_providers(): fixed by the installed runtime *)
  available_providers : list string;
  (* argparse's reading of sys.argv; None when it exits (error, -h, -v) *)
  read_command_line : list string -> option CommandLine;
  (* sys.version_info[:2] *)
  version_info : Z * Z;
  (* platform.system() *)
  platform_system : string;
  (* 8 * sizeof(size_t), for ctypes.c_size_t *)
  size_t_bits : Z;
  (* how an f-string prints the frame rate *)
  format_fps : Fps -> string;
  (* roop.processors.frame.core *)
  w_get_frame_processors_modules : list string -> list FrameProcessor.t;
  (* shutil, tensorflow *)
  w_which : History -> string -> option string;
  w_list_physical_devices : History -> string -> list string;
  (* roop.utilities *)
  w_normalize_output_path : History -> Path -> Path -> Path -> Path;
  w_has_image_extension : History -> Path -> bool;
  w_is_image : History -> Path -> bool;
  w_is_video : History -> Path -> bool;
  w_detect_fps : History -> Path -> Fps;
  w_get_temp_frame_paths : History -> Path -> list string;
  w_create_video : History -> Path -> option Fps -> bool
}.

(** ** roop.globals *)

Record Globals : Type := {
  source_path : Path;
  target_path : Path;
  output_path : Path;
  headless : bool;
  frame_processors : list string;
  ui_layouts : list string;
  keep_fps : bool;
  keep_temp : bool;
  skip_audio : bool;
  many_faces : bool;
  reference_face_position : Z;
  reference_frame_number : Z;
  similar_face_distance : Q;
  temp_frame_format : string;
  temp_frame_quality : Z;
  output_video_encoder : string;
  output_video_quality : Z;
  max_memory : Z;
  execution_providers : list string;
  execution_thread_count : Z;
  execution_queue_count : Z
}.

(** ** The monad of [core.py]'s functions

    A computation reads the history, emits the events of its own calls and
    either returns a value or leaves the process through [sys.exit]. *)

Inductive Outcome (A : Type) : Type :=
| Returned (a : A)
| Exited.
Arguments Returned {A} a.
Arguments Exited {A}.

Definition M (A : Type) : Type := History -> list Event * Outcome A.

Definition ret {A} (a : A) : M A := fun _ => ([], Returned a).

Definition bind {A B} (m : M A) (f : A -> M B) : M B :=
  fun h =>
    match m h with
    | (t1, Returned a) =>
        match f a (h ++ t1) with
        | (t2, o) => (t1 ++ t2, o)
        end
    | (t1, Exited) => (t1, Exited)
    end.

(** A call that answers [answer h] and is recorded as [ev (answer h)]. *)
Definition ask {A} (answer : History -> A) (ev : A -> Event) : M A :=
  fun h => ([ev (answer h)], Returned (answer h)).

(** A call made for its effect. *)
Definition tell (e : Event) : M unit := fun _ => ([e], Returned tt).

(** [sys.exit()] *)
Definition sys_exit {A} : M A := fun _ => ([], Exited).

Declare Scope roop_scope.
Delimit Scope roop_scope with roop.
Notation "x <- m ;; k" := (bind m (fun x => k))
  (at level 100, m at next level, right associativity) : roop_scope.
Notation "m ;; k" := (bind m (fun _ => k))
  (at level 100, right associativity) : roop_scope.
Local Open Scope roop_scope.

(** [for x in l: body(x)] *)
Fixpoint for_each {A} (body : A -> M unit) (l : list A) : M unit :=
  match l with
  | [] => ret tt
  | x :: l' => body x ;; for_each body l'
  end.

(** [for x in l: if not check(x): return], answering whether the loop ran
    to its end. *)
Fixpoint all_pass {A} (check : A -> M bool) (l : list A) : M bool :=
  match l with
  | [] => ret true
  | x :: l' =>
      ok <- check x ;;
      if ok then all_pass check l' else ret false
  end.

(** The events of a run and how it ended, from an empty history. *)
Definition trace {A} (m : M A) : list Event := fst (m []).
Definition outcome {A} (m : M A) : Outcome A := snd (m []).

(** ** core.py *)

(** The line [update_status] prints: [f'[{scope}] {message}']. *)
Definition status (message scope : string) : Event :=
  EvPrint ("[" ++ scope ++ "] " ++ message).

Section Core.

Variable W : World.

(** *** The collaborators as calls *)

Definition get_frame_processors_modules (names : list string) : list FrameProcessor.t :=
  w_get_frame_processors_modules W names.

Definition which (cmd : string) : M (option string) :=
  ask (fun h => w_which W h cmd) (EvWhich cmd).

Definition list_physical_devices (kind : string) : M (list string) :=
  ask (fun h => w_list_physical_devices W h kind) (EvListPhysicalDevices kind).

Definition normalize_output_path (source target output : Path) : M Path :=
  ask (fun h => w_normalize_output_path W h source target output)
      (EvNormalizeOutputPath source target output).

Definition has_image_extension (path : Path) : M bool :=
  ask (fun h => w_has_image_extension W h path) (EvHasImageExtension path).

Definition is_image (path : Path) : M bool :=
  ask (fun h => w_is_image W h path) (EvIsImage path).

Definition is_video (path : Path) : M bool :=
  ask (fun h => w_is_video W h path) (EvIsVideo path).

Definition detect_fps (target : Path) : M Fps :=
  ask (fun h => w_detect_fps W h target) (EvDetectFps target).

Definition get_temp_frame_paths (target : Path) : M (list string) :=
  ask (fun h => w_get_temp_frame_paths W h target) (EvGetTempFramePaths target).

Definition create_video (target : Path) (fps : option Fps) : M bool :=
  ask (fun h => w_create_video W h target fps) (EvCreateVideo target fps).

Definition module_pre_check (m : FrameProcessor.t) : M bool :=
  ask (FrameProcessor.pre_check m) (EvPreCheck (FrameProcessor.NAME m)).

Definition module_pre_start (m : FrameProcessor.t) : M bool :=
  ask (FrameProcessor.pre_start m) (EvPreStart (FrameProcessor.NAME m)).

(** *** update_status (lines 131-132) *)

Definition ROOP_CORE : string := "ROOP.CORE".

Definition update_status (message scope : string) : M unit :=
  tell (status message scope).

(** *** parse_args (lines 27-74) *)

(** [action='store_true'] with the given [default]. *)
Definition store_true (default given : bool) : bool :=
  if given then true else default.

(** An option with a value and a [default]. *)
Definition value_or {A} (default : A) (given : option A) : A :=
  match given with
  | Some v => v
  | None => default
  end.

(** [choices=...]: argparse checks a value that was given, not the default. *)
Definition in_choices {A} (eqb : A -> A -> bool) (choices : list A) (given : option A) : bool :=
  match given with
  | Some v => existsb (eqb v) choices
  | None => true
  end.

(** [choices=...] with [nargs='+']: every value given is checked. *)
Definition all_in_choices {A} (eqb : A -> A -> bool) (choices : list A)
  (given : option (list A)) : bool :=
  match given with
  | Some vs => forallb (fun v => existsb (eqb v) choices) vs
  | None => true
  end.

(** [choices=range(101)] *)
Definition in_range_101 (given : option Z) : bool :=
  match given with
  | Some v => (0 <=? v)%Z && (v <? 101)%Z
  | None => true
  end.

Definition choices_respected (cl : CommandLine) : bool :=
  in_choices String.eqb ["jpg"; "png"] (cl_temp_frame_format cl)
  && in_range_101 (cl_temp_frame_quality cl)
  && in_choices String.eqb
       ["libx264"; "libx265"; "libvpx-vp9"; "h264_nvenc"; "hevc_nvenc"]
       (cl_output_video_encoder cl)
  && in_range_101 (cl_output_video_quality cl)
  && all_in_choices String.eqb (suggest_execution_providers (available_providers W))
       (cl_execution_providers cl).

Definition parse_args (argv : list string) : M Globals :=
  tell EvSignal ;;
  match read_command_line W argv with
  | None => sys_exit
  | Some cl =>
      if negb (choices_respected cl) then sys_exit else
      let source := cl_source_path cl in
      let target := cl_target_path cl in
      output <- normalize_output_path source target (cl_output_path cl) ;;
      ret {|
        source_path := source;
        target_path := target;
        output_path := output;
        headless :=
          match source, target, output with
          | Some _, Some _, Some _ => true
          | _, _, _ => false
          end;
        frame_processors := value_or ["face_swapper"] (cl_frame_processors cl);
        ui_layouts := value_or ["default"] (cl_ui_layouts cl);
        keep_fps := store_true true (cl_keep_fps cl);
        keep_temp := store_true false (cl_keep_temp cl);
        skip_audio := store_true false (cl_skip_audio cl);
        many_faces := store_true false (cl_many_faces cl);
        reference_face_position := value_or 0%Z (cl_reference_face_position cl);
        reference_frame_number := value_or 0%Z (cl_reference_frame_number cl);
        similar_face_distance := value_or (5 # 4)%Q (cl_similar_face_distance cl);
        temp_frame_format := value_or "jpg" (cl_temp_frame_format cl);
        temp_frame_quality := value_or 1%Z (cl_temp_frame_quality cl);
        output_video_encoder := value_or "libx264" (cl_output_video_encoder cl);
        output_video_quality := value_or 35%Z (cl_output_video_quality cl);
        max_memory := value_or 16%Z (cl_max_memory cl);
        execution_providers :=
          decode_execution_providers (available_providers W)
            (value_or ["cpu"] (cl_execution_providers cl));
        execution_thread_count :=
          value_or (suggest_execution_thread_count (available_providers W))
            (cl_execution_thread_count cl);
        execution_queue_count := value_or 1%Z (cl_execution_queue_count cl)
      |}
  end.

(** *** limit_resources (lines 100-118)

    An event records a call that is made.  The embedding follows the flow in
    which the call returns; [resource.setrlimit] can also raise (it does for
    a value of [2 ** 63] or more), and the flow then stops at that call. *)

(** [ctypes.c_size_t(n)]: no overflow check, the value wraps. *)
Definition c_size_t (n : Z) : Z := (n mod 2 ^ size_t_bits W)%Z.

Definition limit_resources (g : Globals) : M unit :=
  gpus <- list_physical_devices "GPU" ;;
  for_each (fun gpu => tell (EvSetVirtualDeviceConfiguration gpu 1024)) gpus ;;
  if (max_memory g =? 0)%Z then ret tt else
  let memory :=
    if String.eqb (lower (platform_system W)) "darwin"
    then (max_memory g * 1024 ^ 6)%Z
    else (max_memory g * 1024 ^ 3)%Z in
  if String.eqb (lower (platform_system W)) "windows"
  then tell (EvSetProcessWorkingSetSize (-1) (c_size_t memory) (c_size_t memory))
  else tell (EvSetrlimit memory memory).

(** *** pre_check (lines 121-128) *)

(** [sys.version_info < (3, 10)] *)
Definition version_lt_3_10 (v : Z * Z) : bool :=
  (fst v <? 3)%Z || ((fst v =? 3)%Z && (snd v <? 10)%Z).

Definition pre_check : M bool :=
  if version_lt_3_10 (version_info W) then
    update_status "Python version is not supported - please upgrade to 3.10 or higher."
      ROOP_CORE ;;
    ret false
  else
    ffmpeg <- which "ffmpeg" ;;
    if negb (truthy ffmpeg) then
      update_status "ffmpeg is not installed." ROOP_CORE ;;
      ret false
    else ret true.

(** *** start (lines 135-205) *)

(** Lines 145-148: the image loop. *)
Definition process_image_loop (g : Globals) : M unit :=
  for_each
    (fun m =>
       update_status "Progressing..." (FrameProcessor.NAME m) ;;
       tell (EvProcessImage (FrameProcessor.NAME m)
               (source_path g) (output_path g) (output_path g)) ;;
       tell (EvPostProcess (FrameProcessor.NAME m)))
    (get_frame_processors_modules (frame_processors g)).

(** Lines 171-174: the video loop. *)
Definition process_video_loop (g : Globals) (temp_frame_paths : list string) : M unit :=
  for_each
    (fun m =>
       update_status "Progressing..." (FrameProcessor.NAME m) ;;
       tell (EvProcessVideo (FrameProcessor.NAME m) (source_path g) temp_frame_paths) ;;
       tell (EvPostProcess (FrameProcessor.NAME m)))
    (get_frame_processors_modules (frame_processors g)).

(** Lines 143-154: image to image. *)
Definition start_image (g : Globals) : M unit :=
  tell (EvCopy2 (target_path g) (output_path g)) ;;
  process_image_loop g ;;
  valid <- is_image (target_path g) ;;
  if valid
  then update_status "Processing to image succeed!" ROOP_CORE
  else update_status "Processing to image failed!" ROOP_CORE.

(** Lines 161-167: extract frames. *)
Definition start_extract (g : Globals) : M unit :=
  if keep_fps g then
    fps <- detect_fps (target_path g) ;;
    update_status ("Extracting frames with " ++ format_fps W fps ++ " FPS...") ROOP_CORE ;;
    tell (EvExtractFrames (target_path g) (Some fps))
  else
    update_status "Extracting frames with 30 FPS..." ROOP_CORE ;;
    tell (EvExtractFrames (target_path g) None).

(** Lines 179-187: create video. *)
Definition start_create_video (g : Globals) : M unit :=
  if keep_fps g then
    fps <- detect_fps (target_path g) ;;
    update_status ("Creating video with " ++ format_fps W fps ++ " FPS...") ROOP_CORE ;;
    created <- create_video (target_path g) (Some fps) ;;
    if negb created then update_status "Creating video failed..." ROOP_CORE else ret tt
  else
    update_status "Creating video with 30 FPS..." ROOP_CORE ;;
    created <- create_video (target_path g) None ;;
    if negb created then update_status "Creating video failed..." ROOP_CORE else ret tt.

(** Lines 189-197: handle audio. *)
Definition start_audio (g : Globals) : M unit :=
  if skip_audio g then
    tell (EvMoveTemp (target_path g) (output_path g)) ;;
    update_status "Skipping audio..." ROOP_CORE
  else
    (if keep_fps g
     then update_status "Restoring audio..." ROOP_CORE
     else update_status "Restoring audio might cause issues as fps are not kept..."
            ROOP_CORE) ;;
    tell (EvRestoreAudio (target_path g) (output_path g)).

(** Lines 158-205: image to videos. *)
Definition start_video (g : Globals) : M unit :=
  update_status "Creating temporary resources..." ROOP_CORE ;;
  tell (EvCreateTemp (target_path g)) ;;
  start_extract g ;;
  temp_frame_paths <- get_temp_frame_paths (target_path g) ;;
  match temp_frame_paths with
  | [] => update_status "Temporary frames not found..." ROOP_CORE
  | _ :: _ =>
      process_video_loop g temp_frame_paths ;;
      start_create_video g ;;
      start_audio g ;;
      update_status "Cleaning temporary resources..." ROOP_CORE ;;
      tell (EvCleanTemp (target_path g)) ;;
      valid <- is_video (target_path g) ;;
      if valid
      then update_status "Processing to video succeed!" ROOP_CORE
      else update_status "Processing to video failed!" ROOP_CORE
  end.

Definition start (g : Globals) : M unit :=
  ready <- all_pass module_pre_start (get_frame_processors_modules (frame_processors g)) ;;
  if negb ready then ret tt else
  image <- has_image_extension (target_path g) ;;
  if image then start_image g else start_video g.

(** *** destroy (lines 208-211) *)

Definition destroy (g : Globals) : M unit :=
  (if truthy (target_path g) then tell (EvCleanTemp (target_path g)) else ret tt) ;;
  sys_exit.

(** *** run (lines 214-227) *)

Definition run (argv : list string) : M unit :=
  g <- parse_args argv ;;
  ok <- pre_check ;;
  if negb ok then ret tt else
  ready <- all_pass module_pre_check (get_frame_processors_modules (frame_processors g)) ;;
  if negb ready then ret tt else
  limit_resources g ;;
  if headless g then start g else tell EvUiInit.

End Core.

(** ** The traces of [start] and [run]

    The events each phase emits, as a function of the answers it got, and
    the shapes a whole trace can take.  [start_sound] and [run_sound] below
    show that the functions above emit exactly these. *)

Section Traces.

Variable W : World.

Local Abbreviation modules g := (get_frame_processors_modules W (frame_processors g)).

(** One stage on the image path (lines 146-148) and on the video path
    (lines 172-174). *)
Definition image_stage (g : Globals) (m : FrameProcessor.t) : list Event :=
  [ status "Progressing..." (FrameProcessor.NAME m);
    EvProcessImage (FrameProcessor.NAME m) (source_path g) (output_path g) (output_path g);
    EvPostProcess (FrameProcessor.NAME m) ].

Definition video_stage (g : Globals) (frames : list string) (m : FrameProcessor.t)
  : list Event :=
  [ status "Progressing..." (FrameProcessor.NAME m);
    EvProcessVideo (FrameProcessor.NAME m) (source_path g) frames;
    EvPostProcess (FrameProcessor.NAME m) ].

(** The checks that answered true. *)
Definition pre_start_passed (ms : list FrameProcessor.t) : list Event :=
  map (fun m => EvPreStart (FrameProcessor.NAME m) true) ms.

Definition pre_check_passed (ms : list FrameProcessor.t) : list Event :=
  map (fun m => EvPreCheck (FrameProcessor.NAME m) true) ms.

Definition image_verdict (valid : bool) : Event :=
  if valid
  then status "Processing to image succeed!" ROOP_CORE
  else status "Processing to image failed!" ROOP_CORE.

Definition video_verdict (valid : bool) : Event :=
  if valid
  then status "Processing to video succeed!" ROOP_CORE
  else status "Processing to video failed!" ROOP_CORE.

Definition extract_events (g : Globals) (fps : Fps) : list Event :=
  if keep_fps g then
    [ EvDetectFps (target_path g) fps;
      status ("Extracting frames with " ++ format_fps W fps ++ " FPS...") ROOP_CORE;
      EvExtractFrames (target_path g) (Some fps) ]
  else
    [ status "Extracting frames with 30 FPS..." ROOP_CORE;
      EvExtractFrames (target_path g) None ].

Definition create_video_failed (created : bool) : list Event :=
  if created then [] else [status "Creating video failed..." ROOP_CORE].

Definition create_video_events (g : Globals) (fps : Fps) (created : bool) : list Event :=
  if keep_fps g then
    [ EvDetectFps (target_path g) fps;
      status ("Creating video with " ++ format_fps W fps ++ " FPS...") ROOP_CORE;
      EvCreateVideo (target_path g) (Some fps) created ]
    ++ create_video_failed created
  else
    [ status "Creating video with 30 FPS..." ROOP_CORE;
      EvCreateVideo (target_path g) None created ]
    ++ create_video_failed created.

Definition audio_events (g : Globals) : list Event :=
  if skip_audio g then
    [ EvMoveTemp (target_path g) (output_path g);
      status "Skipping audio..." ROOP_CORE ]
  else
    [ (if keep_fps g
       then status "Restoring audio..." ROOP_CORE
       else status "Restoring audio might cause issues as fps are not kept..." ROOP_CORE);
      EvRestoreAudio (target_path g) (output_path g) ].

Definition clean_events (g : Globals) (valid : bool) : list Event :=
  [ status "Cleaning temporary resources..." ROOP_CORE;
    EvCleanTemp (target_path g);
    EvIsVideo (target_path g) valid;
    video_verdict valid ].

Inductive start_trace (g : Globals) : list Event -> Prop :=
| start_not_ready l1 m l2 :
    modules g = l1 ++ m :: l2 ->
    start_trace g
      (pre_start_passed l1 ++ [EvPreStart (FrameProcessor.NAME m) false])
| start_image_done valid :
    start_trace g
      (pre_start_passed (modules g)
       ++ [ EvHasImageExtension (target_path g) true;
            EvCopy2 (target_path g) (output_path g) ]
       ++ flat_map (image_stage g) (modules g)
       ++ [ EvIsImage (target_path g) valid; image_verdict valid ])
| start_no_frames fps :
    start_trace g
      (pre_start_passed (modules g)
       ++ [ EvHasImageExtension (target_path g) false;
            status "Creating temporary resources..." ROOP_CORE;
            EvCreateTemp (target_path g) ]
       ++ extract_events g fps
       ++ [ EvGetTempFramePaths (target_path g) [];
            status "Temporary frames not found..." ROOP_CORE ])
| start_video_done fps frames fps' created valid :
    frames <> [] ->
    start_trace g
      (pre_start_passed (modules g)
       ++ [ EvHasImageExtension (target_path g) false;
            status "Creating temporary resources..." ROOP_CORE;
            EvCreateTemp (target_path g) ]
       ++ extract_events g fps
       ++ [ EvGetTempFramePaths (target_path g) frames ]
       ++ flat_map (video_stage g frames) (modules g)
       ++ create_video_events g fps' created
       ++ audio_events g
       ++ clean_events g valid).

(** Lines 108-118 of [limit_resources]. *)
Definition memory_events (g : Globals) : list Event :=
  if (max_memory g =? 0)%Z then [] else
  let memory :=
    if String.eqb (lower (platform_system W)) "darwin"
    then (max_memory g * 1024 ^ 6)%Z
    else (max_memory g * 1024 ^ 3)%Z in
  if String.eqb (lower (platform_system W)) "windows"
  then [EvSetProcessWorkingSetSize (-1) (c_size_t W memory) (c_size_t W memory)]
  else [EvSetrlimit memory memory].

Definition limit_events (g : Globals) (gpus : list string) : list Event :=
  EvListPhysicalDevices "GPU" gpus
    :: map (fun gpu => EvSetVirtualDeviceConfiguration gpu 1024) gpus
    ++ memory_events g.

(** What [parse_args] emits when it returns [g], given the [--output] value. *)
Definition config_events (g : Globals) (output : Path) : list Event :=
  [ EvSignal;
    EvNormalizeOutputPath (source_path g) (target_path g) output (output_path g) ].

Inductive run_trace (argv : list string) (h : History)
  : list Event -> Outcome unit -> Prop :=
| run_usage :
    parse_args W argv h = ([EvSignal], Exited) ->
    run_trace argv h [EvSignal] Exited
| run_python_unsupported g o :
    parse_args W argv h = (config_events g o, Returned g) ->
    run_trace argv h
      (config_events g o
       ++ [status "Python version is not supported - please upgrade to 3.10 or higher."
             ROOP_CORE])
      (Returned tt)
| run_no_ffmpeg g o ffmpeg :
    parse_args W argv h = (config_events g o, Returned g) ->
    truthy ffmpeg = false ->
    run_trace argv h
      (config_events g o
       ++ [EvWhich "ffmpeg" ffmpeg; status "ffmpeg is not installed." ROOP_CORE])
      (Returned tt)
| run_not_ready g o ffmpeg l1 m l2 :
    parse_args W argv h = (config_events g o, Returned g) ->
    truthy ffmpeg = true ->
    modules g = l1 ++ m :: l2 ->
    run_trace argv h
      (config_events g o
       ++ [EvWhich "ffmpeg" ffmpeg]
       ++ pre_check_passed l1
       ++ [EvPreCheck (FrameProcessor.NAME m) false])
      (Returned tt)
| run_ui g o ffmpeg gpus :
    parse_args W argv h = (config_events g o, Returned g) ->
    truthy ffmpeg = true ->
    headless g = false ->
    run_trace argv h
      (config_events g o
       ++ [EvWhich "ffmpeg" ffmpeg]
       ++ pre_check_passed (modules g)
       ++ limit_events g gpus
       ++ [EvUiInit])
      (Returned tt)
| run_headless g o ffmpeg gpus ts :
    parse_args W argv h = (config_events g o, Returned g) ->
    truthy ffmpeg = true ->
    headless g = true ->
    start_trace g ts ->
    run_trace argv h
      (config_events g o
       ++ [EvWhich "ffmpeg" ffmpeg]
       ++ pre_check_passed (modules g)
       ++ limit_events g gpus
       ++ ts)
      (Returned tt).

End Traces.

(** ** Reading traces *)

Definition is_config_event (e : Event) : bool :=
  match e with
  | EvSignal | EvNormalizeOutputPath _ _ _ _ => true
  | _ => false
  end.

Definition is_module_pre_check (e : Event) : bool :=
  match e with
  | EvPreCheck _ _ => true
  | _ => false
  end.

(** [limit_resources] starts with the query for the GPU devices, which
    therefore marks each of its invocations. *)
Definition is_limit_resources_call (e : Event) : bool :=
  match e with
  | EvListPhysicalDevices _ _ => true
  | _ => false
  end.

Definition is_limit_resources_event (e : Event) : bool :=
  match e with
  | EvListPhysicalDevices _ _
  | EvSetVirtualDeviceConfiguration _ _
  | EvSetProcessWorkingSetSize _ _ _
  | EvSetrlimit _ _ => true
  | _ => false
  end.

(** The calls of a stage's work: processing and [post_process]. *)
Definition is_stage_call (e : Event) : bool :=
  match e with
  | EvProcessImage _ _ _ _ | EvProcessVideo _ _ _ | EvPostProcess _ => true
  | _ => false
  end.

(** Calls that create, write or delete the workspace or an output file. *)
Definition writes_files (e : Event) : bool :=
  match e with
  | EvCopy2 _ _
  | EvProcessImage _ _ _ _
  | EvProcessVideo _ _ _
  | EvCreateTemp _
  | EvExtractFrames _ _
  | EvCreateVideo _ _ _
  | EvMoveTemp _ _
  | EvRestoreAudio _ _
  | EvCleanTemp _ => true
  | _ => false
  end.

(** The calls that come after the preflight of [run]: those of [start]
    (its status lines apart) and the hand-over to the user interface. *)
Definition after_pre_check (e : Event) : bool :=
  match e with
  | EvSignal
  | EvNormalizeOutputPath _ _ _ _
  | EvPrint _
  | EvWhich _ _
  | EvPreCheck _ _
  | EvListPhysicalDevices _ _
  | EvSetVirtualDeviceConfiguration _ _
  | EvSetProcessWorkingSetSize _ _ _
  | EvSetrlimit _ _ => false
  | _ => true
  end.

Definition stage_calls (tr : list Event) : list Event := List.filter is_stage_call tr.

Definition occurrences (P : Event -> bool) (tr : list Event) : nat :=
  length (List.filter P tr).

(** Every [P]-event of the trace comes before every [Q]-event: nothing
    after a [Q]-event is a [P]-event. *)
Definition all_before (P Q : Event -> bool) (tr : list Event) : Prop :=
  forall pre q post,
    tr = pre ++ q :: post -> Q q = true -> Forall (fun e => P e = false) post.

(** ** Sample runs *)

Definition ready_module (name : string) : FrameProcessor.t :=
  {| FrameProcessor.NAME := name;
     FrameProcessor.pre_check := fun _ => true;
     FrameProcessor.pre_start := fun _ => true |}.

(** A module whose model file is there and which finds no face in the source. *)
Definition faceless_module (name : string) : FrameProcessor.t :=
  {| FrameProcessor.NAME := name;
     FrameProcessor.pre_check := fun _ => true;
     FrameProcessor.pre_start := fun _ => false |}.

(** [-s source -t target -o output] and nothing else. *)
Definition command_line (source target output : string) : CommandLine :=
  {| cl_source_path := Some source;
     cl_target_path := Some target;
     cl_output_path := Some output;
     cl_frame_processors := None;
     cl_ui_layouts := None;
     cl_keep_fps := false;
     cl_keep_temp := false;
     cl_skip_audio := false;
     cl_many_faces := false;
     cl_reference_face_position := None;
     cl_reference_frame_number := None;
     cl_similar_face_distance := None;
     cl_temp_frame_format := None;
     cl_temp_frame_quality := None;
     cl_output_video_encoder := None;
     cl_output_video_quality := None;
     cl_max_memory := None;
     cl_execution_providers := None;
     cl_execution_thread_count := None;
     cl_execution_queue_count := None |}.

Definition sample_argv (source target output : string) : list string :=
  ["-s"; source; "-t"; target; "-o"; output].

Definition path_in (paths : list string) (p : Path) : bool :=
  match p with
  | Some s => existsb (String.eqb s) paths
  | None => false
  end.

(** A Linux machine with ffmpeg and Python 3.10, no GPU, the files
    [face.png], [photo.jpg] and [clip.mp4] (24 frames per second); it loads
    [stages], extracts [frames] from a video and answers [created] when
    asked to assemble the result. *)
Definition sample_world (source target output : string)
  (stages : list FrameProcessor.t) (frames : list string) (created : bool) : World :=
  {| available_providers := ["CPUExecutionProvider"];
     read_command_line :=
       fun argv =>
         if List.list_eq_dec string_dec argv (sample_argv source target output)
         then Some (command_line source target output)
         else None;
     version_info := (3, 10)%Z;
     platform_system := "Linux";
     size_t_bits := 64%Z;
     format_fps := fun _ => "24.0";
     w_get_frame_processors_modules := fun _ => stages;
     w_which := fun _ cmd => Some ("/usr/bin/" ++ cmd)%string;
     w_list_physical_devices := fun _ _ => [];
     w_normalize_output_path := fun _ _ _ o => o;
     w_has_image_extension := fun _ p => path_in ["face.png"; "photo.jpg"] p;
     w_is_image := fun _ p => path_in ["face.png"; "photo.jpg"] p;
     w_is_video := fun _ p => path_in ["clip.mp4"] p;
     w_detect_fps := fun _ _ => 24%Q;
     w_get_temp_frame_paths := fun _ _ => frames;
     w_create_video := fun _ _ _ => created |}.

(** What [parse_args] makes of [-s source -t target -o output] in a sample
    world. *)
Definition sample_globals (source target output : string) : Globals :=
  {| source_path := Some source;
     target_path := Some target;
     output_path := Some output;
     headless := true;
     frame_processors := ["face_swapper"];
     ui_layouts := ["default"];
     keep_fps := true;
     keep_temp := false;
     skip_audio := false;
     many_faces := false;
     reference_face_position := 0%Z;
     reference_frame_number := 0%Z;
     similar_face_distance := (5 # 4)%Q;
     temp_frame_format := "jpg";
     temp_frame_quality := 1%Z;
     output_video_encoder := "libx264";
     output_video_quality := 35%Z;
     max_memory := 16%Z;
     execution_providers := ["CPUExecutionProvider"];
     execution_thread_count := 1%Z;
     execution_queue_count := 1%Z |}.

(** The image job, the video job, the video job on a file that yields no
    frame, the video job whose assembly fails, and the image job with a
    module that finds no face. *)
Definition photo_world : World :=
  sample_world "face.png" "photo.jpg" "swapped.dat" [ready_module "face_swapper"] [] true.

Definition photo_argv : list string := sample_argv "face.png" "photo.jpg" "swapped.dat".

Definition photo_globals : Globals := sample_globals "face.png" "photo.jpg" "swapped.dat".

Definition clip_frames : list string := ["0001.jpg"; "0002.jpg"].

Definition clip_world (frames : list string) (created : bool) : World :=
  sample_world "face.png" "clip.mp4" "swapped.mp4"
    [ready_module "face_swapper"; ready_module "face_enhancer"] frames created.

Definition clip_argv : list string := sample_argv "face.png" "clip.mp4" "swapped.mp4".

Definition clip_globals : Globals := sample_globals "face.png" "clip.mp4" "swapped.mp4".

Definition faceless_world : World :=
  sample_world "face.png" "photo.jpg" "swapped.dat"
    [ready_module "face_swapper"; faceless_module "face_enhancer"] [] true.

(** The decidable form of [all_before]. *)
Fixpoint all_beforeb (P Q : Event -> bool) (tr : list Event) : bool :=
  match tr with
  | [] => true
  | e :: tr' => (negb (Q e) || forallb (fun x => negb (P x)) tr') && all_beforeb P Q tr'
  end.

(** ** More ways to read traces *)

Definition is_module_pre_start (e : Event) : bool :=
  match e with
  | EvPreStart _ _ => true
  | _ => false
  end.

Definition is_status_line (e : Event) : bool :=
  match e with
  | EvPrint _ => true
  | _ => false
  end.

Definition is_copy2 (e : Event) : bool :=
  match e with
  | EvCopy2 _ _ => true
  | _ => false
  end.

Definition is_clean_temp (e : Event) : bool :=
  match e with
  | EvCleanTemp _ => true
  | _ => false
  end.

(** The calls of the video path: the workspace, the frames and ffmpeg. *)
Definition is_video_call (e : Event) : bool :=
  match e with
  | EvCreateTemp _
  | EvDetectFps _ _
  | EvExtractFrames _ _
  | EvGetTempFramePaths _ _
  | EvProcessVideo _ _ _
  | EvCreateVideo _ _ _
  | EvMoveTemp _ _
  | EvRestoreAudio _ _
  | EvCleanTemp _
  | EvIsVideo _ _ => true
  | _ => false
  end.

(** The calls that read or write the frames of the workspace. *)
Definition uses_workspace (e : Event) : bool :=
  match e with
  | EvExtractFrames _ _
  | EvGetTempFramePaths _ _
  | EvProcessVideo _ _ _
  | EvCreateVideo _ _ _
  | EvMoveTemp _ _
  | EvRestoreAudio _ _ => true
  | _ => false
  end.

(** The process-wide memory limit of [limit_resources]. *)
Definition is_memory_limit (e : Event) : bool :=
  match e with
  | EvSetProcessWorkingSetSize _ _ _ | EvSetrlimit _ _ => true
  | _ => false
  end.

(** ** More sample runs *)

(** The options of a command line that gives the three paths, or not, and
    [--execution-providers], or not. *)
Definition options (source target output : option string)
  (providers : option (list string)) : CommandLine :=
  {| cl_source_path := source;
     cl_target_path := target;
     cl_output_path := output;
     cl_frame_processors := None;
     cl_ui_layouts := None;
     cl_keep_fps := false;
     cl_keep_temp := false;
     cl_skip_audio := false;
     cl_many_faces := false;
     cl_reference_face_position := None;
     cl_reference_frame_number := None;
     cl_similar_face_distance := None;
     cl_temp_frame_format := None;
     cl_temp_frame_quality := None;
     cl_output_video_encoder := None;
     cl_output_video_quality := None;
     cl_max_memory := None;
     cl_execution_providers := providers;
     cl_execution_thread_count := None;
     cl_execution_queue_count := None |}.

(** A machine described by its Python version, the path of ffmpeg, its
    platform, its GPUs and its runtime's providers, which reads [cl] from
    any argument vector; the files are those of [sample_world]. *)
Definition machine (version : Z * Z) (ffmpeg : option string) (platform : string)
  (gpus providers : list string) (cl : CommandLine) : World :=
  {| available_providers := providers;
     read_command_line := fun _ => Some cl;
     version_info := version;
     platform_system := platform;
     size_t_bits := 64%Z;
     format_fps := fun _ => "24.0";
     w_get_frame_processors_modules := map ready_module;
     w_which := fun _ _ => ffmpeg;
     w_list_physical_devices := fun _ _ => gpus;
     w_normalize_output_path := fun _ _ _ o => o;
     w_has_image_extension := fun _ p => path_in ["face.png"; "photo.jpg"] p;
     w_is_image := fun _ p => path_in ["face.png"; "photo.jpg"] p;
     w_is_video := fun _ p => path_in ["clip.mp4"] p;
     w_detect_fps := fun _ _ => 24%Q;
     w_get_temp_frame_paths := fun _ _ => clip_frames;
     w_create_video := fun _ _ _ => true |}.

Definition photo_options : CommandLine :=
  options (Some "face.png") (Some "photo.jpg") (Some "swapped.png") None.

Definition linux_machine (cl : CommandLine) : World :=
  machine (3, 11)%Z (Some "/usr/bin/ffmpeg") "Linux" []
    ["CUDAExecutionProvider"; "CPUExecutionProvider"] cl.

Definition windows_machine (cl : CommandLine) : World :=
  machine (3, 11)%Z (Some "C:\ffmpeg\ffmpeg.exe") "Windows" ["GPU:0"]
    ["CPUExecutionProvider"] cl.

Definition old_python_machine (cl : CommandLine) : World :=
  machine (3, 9)%Z (Some "/usr/bin/ffmpeg") "Linux" [] ["CPUExecutionProvider"] cl.

Definition machine_without_ffmpeg (cl : CommandLine) : World :=
  machine (3, 11)%Z None "Linux" [] ["CPUExecutionProvider"] cl.

(** Settings as the user interface may leave them: a fixed frame rate and
    no audio. *)
Definition fixed_rate_globals : Globals :=
  {| source_path := Some "face.png";
     target_path := Some "clip.mp4";
     output_path := Some "swapped.mp4";
     headless := false;
     frame_processors := ["face_swapper"];
     ui_layouts := ["default"];
     keep_fps := false;
     keep_temp := false;
     skip_audio := true;
     many_faces := false;
     reference_face_position := 0%Z;
     reference_frame_number := 0%Z;
     similar_face_distance := (5 # 4)%Q;
     temp_frame_format := "jpg";
     temp_frame_quality := 1%Z;
     output_video_encoder := "libx264";
     output_video_quality := 35%Z;
     max_memory := 0%Z;
     execution_providers := ["CPUExecutionProvider"];
     execution_thread_count := 1%Z;
     execution_queue_count := 1%Z |}.

Definition is_virtual_device_configuration (e : Event) : bool :=
  match e with
  | EvSetVirtualDeviceConfiguration _ _ => true
  | _ => false
  end.

Definition cpu_options : CommandLine :=
  options (Some "face.png") (Some "photo.jpg") (Some "swapped.png") (Some ["cpu"]).

Definition no_options : CommandLine := options None None None None.

(** ** Interruption (lines 28 and 208-211) *)

Definition is_signal_registration (e : Event) : bool :=
  match e with
  | EvSignal => true
  | _ => false
  end.

(** Whether the call of line 28 is among the events that have happened. *)
Definition handler_installed (before : History) : bool :=
  existsb is_signal_registration before.

(** The handler that line 28 installs for SIGINT,
    [lambda signal_number, frame: destroy()]: it reads [roop.globals] when
    it is called, not when it is installed. *)
Definition sigint_handler (current : Globals) : M unit := destroy current.

(** SIGINT arrives when the events of the history have happened and
    [roop.globals] is [current].  With the handler installed, Python calls
    it; before line 28 Python's own handler raises [KeyboardInterrupt], which
    [core.py] does not catch, and the process ends without a further call. *)
Definition deliver_sigint (current : Globals) : M unit :=
  fun before =>
    if handler_installed before then sigint_handler current before else sys_exit before.

(** [run] interrupted by SIGINT once [n] of its events have happened (a call
    that is under way when the signal arrives is not among them).  The flow
    stops there, the signal is delivered, and what the handler does follows.
    The flow would go on after a handler that returns; [deliver_sigint]
    never does. *)
Definition run_interrupted (W : World) (argv : list string) (n : nat)
  (current : Globals) : list Event * Outcome unit :=
  let before := firstn n (trace (run W argv)) in
  let (after, o) := deliver_sigint current before in
  (before ++ after, o).

(** [roop.globals.target_path] while [run] is under way.  The module
    [roop.globals] (not among these sources) gives it the value [initial];
    line 55 assigns the target of the command line, after argparse has
    accepted it (line 52) and before the call of line 56, which is the second
    event of the run; nothing in [core.py] assigns it again.  So the target
    is the job's as soon as two events have happened, and with one event it
    is the job's or still the initial one, as [line_55_done] tells. *)
Definition current_target (W : World) (initial : Path) (argv : list string)
  (n : nat) (line_55_done : bool) : Path :=
  match read_command_line W argv with
  | Some cl =>
      if choices_respected W cl && (line_55_done || Nat.leb 2 n)
      then cl_target_path cl
      else initial
  | None => initial
  end.

Definition mac_machine (cl : CommandLine) : World :=
  machine (3, 11)%Z (Some "/opt/homebrew/bin/ffmpeg") "Darwin" []
    ["CoreMLExecutionProvider"; "CPUExecutionProvider"] cl.
(** * Properties *)

(** ** Execution providers *)

Example encode_cuda_cpu :
  encode_execution_providers ["CUDAExecutionProvider"; "CPUExecutionProvider"]
  = ["cuda"; "cpu"].
Proof. reflexivity. Qed.

Example decode_follows_runtime_order :
  decode_execution_providers ["CUDAExecutionProvider"; "CPUExecutionProvider"] ["cpu"; "cuda"]
  = ["CUDAExecutionProvider"; "CPUExecutionProvider"].
Proof. reflexivity. Qed.

Example decode_matches_fragments :
  decode_execution_providers
    ["TensorrtExecutionProvider"; "CUDAExecutionProvider"; "CPUExecutionProvider"] ["u"]
  = ["CUDAExecutionProvider"; "CPUExecutionProvider"].
Proof. reflexivity. Qed.

Section Providers.

Context {A B : Type}.

Lemma filtered_combine_sublist (keep : A * B -> bool) (l : list A) (l' : list B) :
  map fst (List.filter keep (combine l l')) `sublist_of` l.
Proof.
  revert l'; induction l as [|a l IH]; intros [|b l']; simpl.
  - constructor.
  - constructor.
  - apply sublist_nil_l.
  - destruct (keep (a, b)); simpl.
    + apply sublist_skip, IH.
    + apply sublist_cons, IH.
Qed.

End Providers.

(** A requested token is matched when it occurs in the encoded name of
    some available provider. *)
Definition matched (available : list string) (token : string) : bool :=
  existsb (contains token) (encode_execution_providers available).

Lemma existsb_drop_unmatched available requested encoded :
  In encoded (encode_execution_providers available) ->
  existsb (fun token => contains token encoded) (List.filter (matched available) requested)
  = existsb (fun token => contains token encoded) requested.
Proof.
  intros Hin. induction requested as [|r rs IH]; simpl; [reflexivity|].
  destruct (matched available r) eqn:Hm; simpl.
  - now rewrite IH.
  - rewrite IH. destruct (contains r encoded) eqn:Hc; [|reflexivity].
    exfalso. unfold matched in Hm.
    assert (existsb (contains r) (encode_execution_providers available) = true) as Ht.
    { apply existsb_exists. exists encoded. split; assumption. }
    congruence.
Qed.

(** C3. The providers resolved from any request are a sub-sequence of the
    list the runtime reports, in the runtime's order; the function is total
    (it returns a list for every input), and the requested tokens that match
    nothing do not change the result. *)
Theorem decode_execution_providers_sublist (available requested : list string) :
  decode_execution_providers available requested `sublist_of` available
  /\ decode_execution_providers available requested
     = decode_execution_providers available (List.filter (matched available) requested).
Proof.
  split.
  - apply filtered_combine_sublist.
  - unfold decode_execution_providers. f_equal.
    apply List.filter_ext_in. intros [p e] Hin. simpl.
    symmetry. apply existsb_drop_unmatched.
    eapply in_combine_r. exact Hin.
Qed.

(** The resolved list is empty exactly when no requested token occurs in
    any encoded available name. *)
Lemma decode_nil_iff (available requested : list string) :
  decode_execution_providers available requested = []
  <-> forallb (fun token => negb (matched available token)) requested = true.
Proof.
  unfold decode_execution_providers, matched.
  set (enc := encode_execution_providers available).
  assert (length enc = length available) as Hlen
    by (unfold enc, encode_execution_providers; apply length_map).
  clearbody enc. revert enc Hlen.
  induction available as [|a l IH]; intros [|e enc] Hlen; simpl in *; try discriminate.
  - split; [intros _|reflexivity].
    apply forallb_forall. reflexivity.
  - injection Hlen as Hlen. specialize (IH enc Hlen).
    destruct (existsb (fun token => contains token e) requested) eqn:He; simpl.
    + split; [discriminate|]. intros Hall. exfalso.
      apply existsb_exists in He as (r & Hr & Hc).
      rewrite forallb_forall in Hall. specialize (Hall r Hr).
      simpl in Hall. rewrite Hc in Hall. discriminate.
    + rewrite IH. clear IH. induction requested as [|r rs IHr]; simpl in *; [tauto|].
      apply orb_false_elim in He as [Hc He]. rewrite Hc. simpl.
      specialize (IHr He). destruct (existsb (contains r) enc); simpl; tauto.
Qed.

(** C4, as the code has it.  Resolution never fails and never substitutes a
    provider: the result is the empty list exactly when no requested token
    matches, and otherwise consists of available providers only. *)
Theorem decode_execution_providers_empty_iff_unmatched (available requested : list string) :
  (decode_execution_providers available requested = []
   <-> forallb (fun token => negb (matched available token)) requested = true)
  /\ (forall provider, In provider (decode_execution_providers available requested) ->
      In provider available).
Proof.
  split.
  - apply decode_nil_iff.
  - intros p Hp.
    pose proof (filtered_combine_sublist
      (fun pe : string * string =>
         existsb (fun execution_provider => contains execution_provider (snd pe)) requested)
      available (encode_execution_providers available)) as Hsub.
    apply list_elem_of_In. eapply sublist_subseteq; [exact Hsub|].
    apply list_elem_of_In. exact Hp.
Qed.

(** C4, counterexample.  With only the CPU provider available, the request
    [cuda] resolves to the empty list: no error, no CPU fallback. *)
Lemma decode_execution_providers_silently_empty :
  decode_execution_providers ["CPUExecutionProvider"] ["cuda"] = [].
Proof. reflexivity. Qed.

(** ** The monad and the loops *)

Section Loops.

Context {A : Type}.

(** A loop whose body emits the same events whatever the history. *)
Lemma for_each_run (body : A -> M unit) (events : A -> list Event) (l : list A) :
  (forall x h, body x h = (events x, Returned tt)) ->
  forall h, for_each body l h = (flat_map events l, Returned tt).
Proof.
  intros Hbody. induction l as [|x l IH]; intros h; simpl.
  - reflexivity.
  - unfold bind. rewrite Hbody, IH. reflexivity.
Qed.

(** A checking loop either passes every element, or stops at the first
    element whose check answers false; it always returns. *)
Lemma all_pass_run (answer : A -> History -> bool) (ev : A -> bool -> Event)
  (l : list A) (h : History) :
  all_pass (fun x => ask (answer x) (ev x)) l h
    = (map (fun x => ev x true) l, Returned true)
  \/ exists l1 x l2,
       l = l1 ++ x :: l2
       /\ all_pass (fun x => ask (answer x) (ev x)) l h
          = (map (fun x => ev x true) l1 ++ [ev x false], Returned false).
Proof.
  revert h. induction l as [|x l IH]; intros h; simpl.
  - left. reflexivity.
  - unfold bind.
    change (ask (answer x) (ev x) h) with ([ev x (answer x h)], Returned (answer x h)).
    destruct (answer x h) eqn:Hx; cbv iota beta.
    + destruct (IH (h ++ [ev x true])) as [E | (l1 & y & l2 & Hl & E)].
      * left. rewrite E. reflexivity.
      * right. exists (x :: l1), y, l2. split; [now rewrite Hl|].
        rewrite E. reflexivity.
    + right. exists [], x, l. split; reflexivity.
Qed.

End Loops.

Section CoreFacts.

Variable W : World.

Local Abbreviation modules g := (get_frame_processors_modules W (frame_processors g)).

Lemma process_image_loop_run g h :
  process_image_loop W g h = (flat_map (image_stage g) (modules g), Returned tt).
Proof. unfold process_image_loop. apply for_each_run. reflexivity. Qed.

Lemma process_video_loop_run g frames h :
  process_video_loop W g frames h
  = (flat_map (video_stage g frames) (modules g), Returned tt).
Proof. unfold process_video_loop. apply for_each_run. reflexivity. Qed.

Lemma pre_start_run g h :
  all_pass module_pre_start (modules g) h
    = (map (fun m => EvPreStart (FrameProcessor.NAME m) true) (modules g), Returned true)
  \/ exists l1 m l2,
       modules g = l1 ++ m :: l2
       /\ all_pass module_pre_start (modules g) h
          = (map (fun m => EvPreStart (FrameProcessor.NAME m) true) l1
               ++ [EvPreStart (FrameProcessor.NAME m) false], Returned false).
Proof.
  apply (all_pass_run FrameProcessor.pre_start
           (fun m => EvPreStart (FrameProcessor.NAME m))).
Qed.

Lemma pre_check_loop_run g h :
  all_pass module_pre_check (modules g) h
    = (map (fun m => EvPreCheck (FrameProcessor.NAME m) true) (modules g), Returned true)
  \/ exists l1 m l2,
       modules g = l1 ++ m :: l2
       /\ all_pass module_pre_check (modules g) h
          = (map (fun m => EvPreCheck (FrameProcessor.NAME m) true) l1
               ++ [EvPreCheck (FrameProcessor.NAME m) false], Returned false).
Proof.
  apply (all_pass_run FrameProcessor.pre_check
           (fun m => EvPreCheck (FrameProcessor.NAME m))).
Qed.

Lemma start_extract_run g h :
  start_extract W g h = (extract_events W g (w_detect_fps W h (target_path g)), Returned tt).
Proof. unfold start_extract, extract_events. destruct (keep_fps g); reflexivity. Qed.

Lemma start_create_video_run g h :
  exists fps created,
    start_create_video W g h = (create_video_events W g fps created, Returned tt).
Proof.
  unfold start_create_video, create_video_events, bind, detect_fps, create_video,
    update_status, ask, tell.
  destruct (keep_fps g); cbv iota beta.
  - match goal with
    | |- context [w_create_video W ?h' ?t ?f] =>
        exists (w_detect_fps W h (target_path g)), (w_create_video W h' t f);
        destruct (w_create_video W h' t f)
    end; reflexivity.
  - match goal with
    | |- context [w_create_video W ?h' ?t ?f] =>
        exists 0%Q, (w_create_video W h' t f);
        destruct (w_create_video W h' t f)
    end; reflexivity.
Qed.

Lemma start_audio_run g h : start_audio g h = (audio_events g, Returned tt).
Proof.
  unfold start_audio, audio_events. destruct (skip_audio g); [reflexivity|].
  destruct (keep_fps g); reflexivity.
Qed.

Ltac prims :=
  unfold update_status, has_image_extension, is_image, is_video, get_temp_frame_paths,
    tell, ask, ret;
  cbv beta iota.

Lemma start_image_run g h :
  exists valid,
    start_image W g h
    = ([EvCopy2 (target_path g) (output_path g)]
       ++ flat_map (image_stage g) (modules g)
       ++ [EvIsImage (target_path g) valid; image_verdict valid], Returned tt).
Proof.
  unfold start_image, bind. prims. rewrite process_image_loop_run. prims.
  match goal with
  | |- context [w_is_image W ?h' ?p] =>
      exists (w_is_image W h' p); destruct (w_is_image W h' p)
  end; reflexivity.
Qed.

Lemma start_video_run g h :
  exists fps,
    start_video W g h
    = ([ status "Creating temporary resources..." ROOP_CORE;
         EvCreateTemp (target_path g) ]
       ++ extract_events W g fps
       ++ [ EvGetTempFramePaths (target_path g) [];
            status "Temporary frames not found..." ROOP_CORE ], Returned tt)
    \/ exists frames fps' created valid,
         frames <> []
         /\ start_video W g h
            = ([ status "Creating temporary resources..." ROOP_CORE;
                 EvCreateTemp (target_path g) ]
               ++ extract_events W g fps
               ++ [ EvGetTempFramePaths (target_path g) frames ]
               ++ flat_map (video_stage g frames) (modules g)
               ++ create_video_events W g fps' created
               ++ audio_events g
               ++ clean_events g valid, Returned tt).
Proof.
  unfold start_video, bind. prims. rewrite start_extract_run. prims.
  match goal with
  | |- context [extract_events W g ?fps] => exists fps
  end.
  match goal with
  | |- context [w_get_temp_frame_paths W ?h' ?p] =>
      destruct (w_get_temp_frame_paths W h' p) as [|frame frames] eqn:Hframes
  end.
  - left. reflexivity.
  - right. rewrite process_video_loop_run.
    match goal with
    | |- context [start_create_video W g ?h'] =>
        destruct (start_create_video_run g h') as (fps' & created & E); rewrite E
    end.
    rewrite start_audio_run.
    match goal with
    | |- context [w_is_video W ?h' ?p] =>
        exists (frame :: frames), fps', created, (w_is_video W h' p);
        destruct (w_is_video W h' p)
    end; (split; [discriminate|reflexivity]).
Qed.

Theorem start_sound g h :
  start_trace W g (fst (start W g h)) /\ snd (start W g h) = Returned tt.
Proof.
  unfold start, bind.
  destruct (pre_start_run g h) as [E | (l1 & m & l2 & Hl & E)]; rewrite E; cbn [negb];
    cbv beta iota.
  - prims.
    match goal with
    | |- context [w_has_image_extension W ?h' ?p] =>
        destruct (w_has_image_extension W h' p)
    end.
    + match goal with
      | |- context [start_image W g ?h'] =>
          destruct (start_image_run g h') as (valid & Ei); rewrite Ei
      end.
      split; [|reflexivity]. apply start_image_done.
    + match goal with
      | |- context [start_video W g ?h'] =>
          destruct (start_video_run g h') as (fps & [Ev | (frames & fps' & c & v & Hf & Ev)]);
            rewrite Ev
      end.
      * split; [|reflexivity]. apply start_no_frames.
      * split; [|reflexivity]. now apply start_video_done.
  - prims. split; [|reflexivity]. cbn [fst]. rewrite app_nil_r.
    now apply start_not_ready with (l2 := l2).
Qed.

Lemma flat_map_singleton {A B} (f : A -> B) (l : list A) :
  flat_map (fun x => [f x]) l = map f l.
Proof. induction l as [|x l IH]; simpl; [reflexivity|now rewrite IH]. Qed.

Lemma limit_resources_run g h :
  limit_resources W g h
  = (limit_events W g (w_list_physical_devices W h "GPU"), Returned tt).
Proof.
  unfold limit_resources, limit_events, memory_events, bind, list_physical_devices.
  prims.
  rewrite (for_each_run _ (fun gpu => [EvSetVirtualDeviceConfiguration gpu 1024]))
    by reflexivity.
  rewrite flat_map_singleton.
  destruct (max_memory g =? 0)%Z; [reflexivity|].
  destruct (String.eqb (lower (platform_system W)) "windows"); reflexivity.
Qed.

(** [parse_args] registers the interrupt handler first; it then either
    leaves through argparse or returns the settings. *)
Lemma parse_args_run argv h :
  parse_args W argv h = ([EvSignal], Exited)
  \/ exists cl g,
       read_command_line W argv = Some cl
       /\ choices_respected W cl = true
       /\ parse_args W argv h = (config_events g (cl_output_path cl), Returned g)
       /\ keep_fps g = store_true true (cl_keep_fps cl)
       /\ execution_providers g
          = decode_execution_providers (available_providers W)
              (value_or ["cpu"] (cl_execution_providers cl)).
Proof.
  unfold parse_args, bind. prims.
  destruct (read_command_line W argv) as [cl|]; [|left; reflexivity].
  destruct (choices_respected W cl) eqn:Hc; cbn [negb]; cbv beta iota;
    [|left; reflexivity].
  right. unfold normalize_output_path. prims.
  match goal with
  | |- context [Returned ?settings] => exists cl, settings
  end.
  repeat split; solve [reflexivity | exact Hc].
Qed.

Lemma parse_args_keep_fps argv h t g :
  parse_args W argv h = (t, Returned g) -> keep_fps g = true.
Proof.
  intros Hp. destruct (parse_args_run argv h) as [E | (cl & g' & _ & _ & E & Hk & _)];
    rewrite E in Hp; [discriminate|].
  injection Hp as _ <-. rewrite Hk. destruct (cl_keep_fps cl); reflexivity.
Qed.

Lemma pre_check_run h :
  (version_lt_3_10 (version_info W) = true
   /\ pre_check W h
      = ([status "Python version is not supported - please upgrade to 3.10 or higher."
            ROOP_CORE], Returned false))
  \/ (exists ffmpeg, truthy ffmpeg = false
      /\ pre_check W h
         = ([EvWhich "ffmpeg" ffmpeg; status "ffmpeg is not installed." ROOP_CORE],
            Returned false))
  \/ (exists ffmpeg, truthy ffmpeg = true
      /\ pre_check W h = ([EvWhich "ffmpeg" ffmpeg], Returned true)).
Proof.
  unfold pre_check, bind, which. prims.
  destruct (version_lt_3_10 (version_info W)); [left; split; reflexivity|].
  right. destruct (truthy (w_which W h "ffmpeg")) eqn:Hw; cbn [negb]; cbv beta iota.
  - right. eexists. split; [exact Hw|reflexivity].
  - left. eexists. split; [exact Hw|reflexivity].
Qed.

Theorem run_sound argv h :
  run_trace W argv h (fst (run W argv h)) (snd (run W argv h)).
Proof.
  unfold run, bind.
  destruct (parse_args_run argv h) as [E | (cl & g & _ & _ & E & _)]; rewrite E.
  { now apply run_usage. }
  match goal with
  | |- context [pre_check W ?h'] =>
      destruct (pre_check_run h') as [[_ Ec] | [(f & Hf & Ec) | (f & Hf & Ec)]]; rewrite Ec
  end; cbn [negb]; cbv beta iota; prims.
  { cbn [fst snd]. rewrite app_nil_r. now apply run_python_unsupported. }
  { cbn [fst snd]. rewrite app_nil_r. now apply run_no_ffmpeg. }
  match goal with
  | |- context [all_pass module_pre_check (modules g) ?h'] =>
      destruct (pre_check_loop_run g h') as [Ep | (l1 & m & l2 & Hl & Ep)]; rewrite Ep
  end; cbn [negb]; cbv beta iota.
  - rewrite limit_resources_run.
    destruct (headless g) eqn:Hh.
    + match goal with
      | |- context [start W g ?h'] =>
          destruct (start_sound g h') as [Hs Ho]; destruct (start W g h') as [ts o]
      end.
      cbn [fst snd] in *. subst o. now apply run_headless.
    + prims. cbn [fst snd]. now apply run_ui.
  - cbn [fst snd]. rewrite app_nil_r. now apply run_not_ready with (l2 := l2).
Qed.

End CoreFacts.

(** ** Reading a trace of known shape *)

(** Splits a membership in a trace whose shape is known into its cases and
    closes the cases where the event cannot be the one looked for. *)
Ltac crack H :=
  unfold config_events, limit_events, memory_events, pre_check_passed, pre_start_passed,
    extract_events, create_video_events, create_video_failed, audio_events,
    clean_events, image_stage, video_stage, image_verdict, video_verdict in H;
  cbv zeta in H;
  repeat lazymatch type of H with
    | In _ (_ ++ _) => apply in_app_or in H; destruct H as [H|H]
    | In _ (_ :: _) => destruct H as [H|H]
    | In _ [] => destruct H
    | In _ (map _ _) => apply in_map_iff in H; destruct H as (? & H & ?)
    | In _ (flat_map _ _) => apply in_flat_map in H; destruct H as (? & ? & H)
    | In _ (if ?b then _ else _) => destruct b eqn:?
    | (if ?b then _ else _) = _ => destruct b eqn:?
    | _ = _ => discriminate H
    end.

(** Every event of a trace of known shape is outside a class of events. *)
Ltac none_of :=
  let e := fresh "e" in
  let He := fresh "He" in
  apply List.Forall_forall; intros e He; crack He; subst; repeat split; reflexivity.

Lemma app_two_last {A} (l : list A) (x y : A) : l ++ [x; y] = (l ++ [x]) ++ [y].
Proof. now rewrite <- app_assoc. Qed.

Section Pipeline.

Variable W : World.

Local Abbreviation modules g := (get_frame_processors_modules W (frame_processors g)).

(** C1, as the code has it.  When extraction yields no frame, [start]
    prints the no-frames status and returns at once: the workspace that
    [create_temp] made is left behind, [clean_temp] is not called. *)
Theorem start_no_frames_skips_clean_temp g h target :
  In (EvGetTempFramePaths target []) (fst (start W g h)) ->
  snd (start W g h) = Returned tt
  /\ (exists pre,
        fst (start W g h) = pre ++ [status "Temporary frames not found..." ROOP_CORE])
  /\ In (EvCreateTemp (target_path g)) (fst (start W g h))
  /\ forall p, ~ In (EvCleanTemp p) (fst (start W g h)).
Proof.
  destruct (start_sound W g h) as [Hs Ho]. rewrite Ho. clear Ho.
  remember (fst (start W g h)) as tr eqn:Htr. clear Htr.
  destruct Hs as [l1 m l2 Hl | valid | fps | fps frames fps' created valid Hf];
    intros Hin; crack Hin.
  - split; [reflexivity|]. split; [|split].
    + rewrite !app_assoc, app_two_last. eexists. reflexivity.
    + rewrite !in_app_iff. simpl. tauto.
    + intros p Hc. crack Hc.
  - injection Hin as _ ->. congruence.
Qed.

(** C8. A failed [create_video] is reported and nothing more: the run goes
    on with the audio step ([move_temp] or [restore_audio]), then cleans the
    workspace, validates and returns. *)
Theorem create_video_failure_is_not_fatal g h target fps :
  In (EvCreateVideo target fps false) (fst (start W g h)) ->
  snd (start W g h) = Returned tt
  /\ (exists pre valid,
        fst (start W g h)
        = pre
          ++ [ EvCreateVideo target fps false;
               status "Creating video failed..." ROOP_CORE ]
          ++ audio_events g
          ++ clean_events g valid)
  /\ (In (EvMoveTemp (target_path g) (output_path g)) (audio_events g)
      \/ In (EvRestoreAudio (target_path g) (output_path g)) (audio_events g))
  /\ (forall valid, In (EvCleanTemp (target_path g)) (clean_events g valid)).
Proof.
  destruct (start_sound W g h) as [Hs Ho]. rewrite Ho. clear Ho.
  remember (fst (start W g h)) as tr eqn:Htr. clear Htr.
  intros Hin. split; [reflexivity|]. split; [|split].
  - destruct Hs as [l1 m l2 Hl | valid | fps0 | fps0 frames fps' created valid Hf];
      unfold create_video_events in *; crack Hin;
      injection Hin as <- <- ->.
    + exists (pre_start_passed (modules g)
              ++ [ EvHasImageExtension (target_path g) false;
                   status "Creating temporary resources..." ROOP_CORE;
                   EvCreateTemp (target_path g) ]
              ++ extract_events W g fps0
              ++ [ EvGetTempFramePaths (target_path g) frames ]
              ++ flat_map (video_stage g frames) (modules g)
              ++ [ EvDetectFps (target_path g) fps';
                   status ("Creating video with " ++ format_fps W fps' ++ " FPS...")
                     ROOP_CORE ]), valid.
      rewrite <- !app_assoc. reflexivity.
    + exists (pre_start_passed (modules g)
              ++ [ EvHasImageExtension (target_path g) false;
                   status "Creating temporary resources..." ROOP_CORE;
                   EvCreateTemp (target_path g) ]
              ++ extract_events W g fps0
              ++ [ EvGetTempFramePaths (target_path g) frames ]
              ++ flat_map (video_stage g frames) (modules g)
              ++ [ status "Creating video with 30 FPS..." ROOP_CORE ]), valid.
      rewrite <- !app_assoc. reflexivity.
  - unfold audio_events. destruct (skip_audio g); simpl; tauto.
  - intros valid. simpl. tauto.
Qed.

Lemma stage_calls_app l1 l2 : stage_calls (l1 ++ l2) = stage_calls l1 ++ stage_calls l2.
Proof. apply List.filter_app. Qed.

Lemma stage_calls_none l :
  Forall (fun e => is_stage_call e = false) l -> stage_calls l = [].
Proof.
  induction 1 as [|e l He _ IH]; [reflexivity|].
  unfold stage_calls in *. simpl. now rewrite He.
Qed.

Lemma stage_calls_image g ms :
  stage_calls (flat_map (image_stage g) ms)
  = flat_map
      (fun m =>
         [ EvProcessImage (FrameProcessor.NAME m)
             (source_path g) (output_path g) (output_path g);
           EvPostProcess (FrameProcessor.NAME m) ]) ms.
Proof.
  induction ms as [|m ms IH]; [reflexivity|].
  cbn [flat_map]. rewrite stage_calls_app, IH. reflexivity.
Qed.

Lemma stage_calls_video g frames ms :
  stage_calls (flat_map (video_stage g frames) ms)
  = flat_map
      (fun m =>
         [ EvProcessVideo (FrameProcessor.NAME m) (source_path g) frames;
           EvPostProcess (FrameProcessor.NAME m) ]) ms.
Proof.
  induction ms as [|m ms IH]; [reflexivity|].
  cbn [flat_map]. rewrite stage_calls_app, IH. reflexivity.
Qed.

(** C6. The stage calls of a run of [start], in the order they were made,
    are: for each module in the order [get_frame_processors_modules] lists
    them, its processing call and then its [post_process].  So a module's
    processing and [post_process] are both over before the next module's
    processing begins, on the image path and on the video path. *)
Theorem stages_run_in_registration_order g h :
  (In (EvHasImageExtension (target_path g) true) (fst (start W g h)) ->
   stage_calls (fst (start W g h))
   = flat_map
       (fun m =>
          [ EvProcessImage (FrameProcessor.NAME m)
              (source_path g) (output_path g) (output_path g);
            EvPostProcess (FrameProcessor.NAME m) ])
       (modules g))
  /\ (forall frames,
        frames <> [] ->
        In (EvGetTempFramePaths (target_path g) frames) (fst (start W g h)) ->
        stage_calls (fst (start W g h))
        = flat_map
            (fun m =>
               [ EvProcessVideo (FrameProcessor.NAME m) (source_path g) frames;
                 EvPostProcess (FrameProcessor.NAME m) ])
            (modules g)).
Proof.
  destruct (start_sound W g h) as [Hs _].
  remember (fst (start W g h)) as tr eqn:Htr. clear Htr.
  split.
  - intros Hin.
    destruct Hs as [l1 m l2 Hl | valid | fps0 | fps0 frames0 fps' created valid Hf];
      crack Hin.
    rewrite !stage_calls_app, stage_calls_image.
    rewrite (stage_calls_none (pre_start_passed _)) by none_of.
    rewrite (stage_calls_none [_; _]) by none_of.
    rewrite (stage_calls_none [_; image_verdict _]) by none_of.
    now rewrite app_nil_r.
  - intros frames Hne Hin.
    destruct Hs as [l1 m l2 Hl | valid | fps0 | fps0 frames0 fps' created valid Hf];
      crack Hin.
    + injection Hin as <-. congruence.
    + injection Hin as ->.
      rewrite !stage_calls_app, stage_calls_video.
      rewrite (stage_calls_none (pre_start_passed _)) by none_of.
      rewrite (stage_calls_none [_; _; _]) by none_of.
      rewrite (stage_calls_none (extract_events _ _ _)) by none_of.
      rewrite (stage_calls_none [_]) by none_of.
      rewrite (stage_calls_none (create_video_events _ _ _ _)) by none_of.
      rewrite (stage_calls_none (audio_events _)) by none_of.
      rewrite (stage_calls_none (clean_events _ _)) by none_of.
      now rewrite !app_nil_r.
Qed.

(** A run of [start] in which some [pre_start] answered false ends with that
    answer and has touched no file. *)
Lemma start_trace_not_ready g ts name :
  start_trace W g ts ->
  In (EvPreStart name false) ts ->
  (exists pre, ts = pre ++ [EvPreStart name false])
  /\ Forall (fun e => writes_files e = false) ts.
Proof.
  intros Hs Hin.
  destruct Hs as [l1 m l2 Hl | valid | fps0 | fps0 frames0 fps' created valid Hf];
    crack Hin.
  injection Hin as <-. split; [eexists; reflexivity|none_of].
Qed.

(** C5. If a stage's [pre_check] or [pre_start] answers false, the run
    returns right after that answer: the answer is the last event, and no
    call that creates the workspace or writes, moves or deletes a file has
    been made.  The same holds for [start] called on its own (as the user
    interface does). *)
Theorem preflight_failure_aborts argv name :
  (In (EvPreCheck name false) (trace (run W argv))
   \/ In (EvPreStart name false) (trace (run W argv)) ->
   outcome (run W argv) = Returned tt
   /\ (exists pre,
         trace (run W argv) = pre ++ [EvPreCheck name false]
         \/ trace (run W argv) = pre ++ [EvPreStart name false])
   /\ Forall (fun e => writes_files e = false) (trace (run W argv)))
  /\ (forall g h,
        In (EvPreStart name false) (fst (start W g h)) ->
        snd (start W g h) = Returned tt
        /\ (exists pre, fst (start W g h) = pre ++ [EvPreStart name false])
        /\ Forall (fun e => writes_files e = false) (fst (start W g h))).
Proof.
  split.
  - unfold trace, outcome. pose proof (run_sound W argv []) as Hr.
    destruct (run W argv []) as [tr o]. cbn [fst snd] in *.
    intros Hin.
    destruct Hr as [Hp | g o Hp | g o f Hp Hf | g o f l1 m l2 Hp Hf Hl
                   | g o f gpus Hp Hf Hh | g o f gpus ts Hp Hf Hh Hs].
    + destruct Hin as [Hin|Hin]; crack Hin.
    + destruct Hin as [Hin|Hin]; crack Hin.
    + destruct Hin as [Hin|Hin]; crack Hin.
    + destruct Hin as [Hin|Hin]; crack Hin.
      injection Hin as <-. split; [reflexivity|]. split; [|none_of].
      rewrite !app_assoc. eexists. left. reflexivity.
    + destruct Hin as [Hin|Hin]; crack Hin.
    + assert (In (EvPreStart name false) ts) as Hts.
      { destruct Hin as [Hin|Hin].
        - exfalso.
          destruct Hs as [k1 m k2 Hl | valid | fps0 | fps0 frames0 fps' created valid Hne];
            crack Hin.
        - apply in_app_or in Hin as [Hin|Hin]; [crack Hin|].
          apply in_app_or in Hin as [Hin|Hin]; [crack Hin|].
          apply in_app_or in Hin as [Hin|Hin]; [crack Hin|].
          apply in_app_or in Hin as [Hin|Hin]; [crack Hin|].
          exact Hin. }
      destruct (start_trace_not_ready g ts name Hs Hts) as [[pre Hpre] Hw].
      split; [reflexivity|]. split.
      * subst ts. rewrite !app_assoc. eexists. right. reflexivity.
      * repeat (apply Forall_app; split); try none_of. exact Hw.
  - intros g h Hin. destruct (start_sound W g h) as [Hs Ho].
    split; [exact Ho|]. now apply (start_trace_not_ready g).
Qed.

(** The body of [destroy]: [clean_temp] on the target when the target path
    is set (not [None], not empty), whatever has happened before and without
    asking whether the workspace exists; then [sys.exit].  The call that
    installs the handler is the first [parse_args] makes. *)
Theorem destroy_cleans_then_exits :
  (forall g h,
     destroy g h
     = (if truthy (target_path g) then [EvCleanTemp (target_path g)] else [], Exited))
  /\ (forall argv h, exists rest, fst (parse_args W argv h) = EvSignal :: rest).
Proof.
  split.
  - intros g h. unfold destroy, bind. destruct (truthy (target_path g)); reflexivity.
  - intros argv h.
    destruct (parse_args_run W argv h) as [E | (cl & g & _ & _ & E & _)]; rewrite E;
      eexists; reflexivity.
Qed.

(** C10. Whatever the argument vector, [parse_args] sets [keep_fps] to
    true; so every [extract_frames] and every [create_video] call of a run
    started from the command line is given the rate [detect_fps] answered,
    never left to the fixed default. *)
Theorem keep_fps_always_true argv :
  (forall h t g, parse_args W argv h = (t, Returned g) -> keep_fps g = true)
  /\ (forall target fps,
        In (EvExtractFrames target fps) (trace (run W argv)) ->
        exists rate,
          fps = Some rate /\ In (EvDetectFps target rate) (trace (run W argv)))
  /\ (forall target fps created,
        In (EvCreateVideo target fps created) (trace (run W argv)) ->
        exists rate,
          fps = Some rate /\ In (EvDetectFps target rate) (trace (run W argv))).
Proof.
  split; [intros h t g; apply parse_args_keep_fps|].
  unfold trace. pose proof (run_sound W argv []) as Hr.
  destruct (run W argv []) as [tr o]. cbn [fst snd] in *.
  split.
  - intros target fps Hin.
    destruct Hr as [Hp | g o Hp | g o f Hp Hf | g o f l1 m l2 Hp Hf Hl
                   | g o f gpus Hp Hf Hh | g o f gpus ts Hp Hf Hh Hs];
      try solve [crack Hin].
    apply parse_args_keep_fps in Hp.
    destruct Hs as [k1 m k2 Hl | valid | fps0 | fps0 frames0 fps' created valid Hne];
      unfold extract_events, create_video_events in *; rewrite ?Hp in *;
      crack Hin; injection Hin as <- <-;
      (eexists; split; [reflexivity|]); rewrite !in_app_iff; cbn [In]; tauto.
  - intros target fps c Hin.
    destruct Hr as [Hp | g o Hp | g o f Hp Hf | g o f l1 m l2 Hp Hf Hl
                   | g o f gpus Hp Hf Hh | g o f gpus ts Hp Hf Hh Hs];
      try solve [crack Hin].
    apply parse_args_keep_fps in Hp.
    destruct Hs as [k1 m k2 Hl | valid | fps0 | fps0 frames0 fps' created valid Hne];
      unfold extract_events, create_video_events in *; rewrite ?Hp in *;
      crack Hin; injection Hin as <- <- <-;
      (eexists; split; [reflexivity|]); rewrite !in_app_iff; cbn [In]; tauto.
Qed.

End Pipeline.

(** ** Counting and ordering events *)

Section Ordering.

Variables P Q : Event -> bool.

Lemma filter_none (l : list Event) :
  Forall (fun e => P e = false) l -> List.filter P l = [].
Proof.
  induction 1 as [|e l He _ IH]; [reflexivity|]. simpl. now rewrite He.
Qed.

Lemma filter_all (l : list Event) :
  Forall (fun e => P e = true) l -> List.filter P l = l.
Proof.
  induction 1 as [|e l He _ IH]; [reflexivity|]. simpl. now rewrite He, IH.
Qed.

Lemma occurrences_app (l1 l2 : list Event) :
  occurrences P (l1 ++ l2) = occurrences P l1 + occurrences P l2.
Proof. unfold occurrences. now rewrite List.filter_app, length_app. Qed.

Lemma occurrences_none (l : list Event) :
  Forall (fun e => P e = false) l -> occurrences P l = 0.
Proof. intros H. unfold occurrences. now rewrite filter_none. Qed.

(** If no [Q]-event is in the first part and no [P]-event in the second,
    every [P]-event comes before every [Q]-event. *)
Lemma all_before_split (l1 l2 : list Event) :
  Forall (fun e => Q e = false) l1 ->
  Forall (fun e => P e = false) l2 ->
  all_before P Q (l1 ++ l2).
Proof.
  intros H1 H2 pre q post. revert pre.
  induction H1 as [|a l1 Ha _ IH]; intros pre E Hq.
  - cbn [app] in E. subst l2.
    apply Forall_app in H2 as [_ H2]. now inversion H2.
  - destruct pre as [|b pre]; cbn [app] in E; injection E as <- E.
    + congruence.
    + now apply (IH pre).
Qed.

End Ordering.

Section Governor.

Variable W : World.

Local Abbreviation modules g := (get_frame_processors_modules W (frame_processors g)).

Lemma start_trace_after_preflight g ts :
  start_trace W g ts ->
  Forall (fun e => is_limit_resources_event e = false
                   /\ is_module_pre_check e = false
                   /\ is_config_event e = false) ts.
Proof.
  intros Hs.
  destruct Hs as [l1 m l2 Hl | valid | fps0 | fps0 frames0 fps' created valid Hf];
    none_of.
Qed.

Lemma limit_events_once g gpus :
  occurrences is_limit_resources_call (limit_events W g gpus) = 1.
Proof.
  unfold limit_events.
  change (occurrences is_limit_resources_call (?e :: ?l))
    with (S (occurrences is_limit_resources_call l)).
  rewrite occurrences_none; [reflexivity|none_of].
Qed.

(** A run has three parts: the preflight (configuration, the core
    [pre_check], the modules' [pre_check]), then [limit_resources], then
    [start] or the user interface.  The later parts are empty when the
    preflight fails. *)
Lemma run_phases argv h :
  exists before limit after,
    fst (run W argv h) = before ++ limit ++ after
    /\ Forall (fun e => is_limit_resources_event e = false
                        /\ after_pre_check e = false) before
    /\ Forall (fun e => is_limit_resources_event e = true) limit
    /\ Forall (fun e => is_limit_resources_event e = false
                        /\ is_module_pre_check e = false
                        /\ is_config_event e = false) after
    /\ occurrences is_limit_resources_call limit <= 1
    /\ (after <> [] -> occurrences is_limit_resources_call limit = 1)
    /\ (limit <> [] ->
        exists g t,
          parse_args W argv h = (t, Returned g)
          /\ List.filter is_module_pre_check before = pre_check_passed (modules g)).
Proof.
  pose proof (run_sound W argv h) as Hr.
  destruct (run W argv h) as [tr o]. cbn [fst snd] in *.
  destruct Hr as [Hp | g o Hp | g o f Hp Hf | g o f l1 m l2 Hp Hf Hl
                 | g o f gpus Hp Hf Hh | g o f gpus ts Hp Hf Hh Hs].
  - exists [EvSignal], [], [].
    repeat split; try solve [none_of | constructor | congruence | cbn; lia].
  - eexists _, [], []. split; [symmetry; apply app_nil_r|].
    repeat split; try solve [none_of | constructor | congruence | cbn; lia].
  - eexists _, [], []. split; [symmetry; apply app_nil_r|].
    repeat split; try solve [none_of | constructor | congruence | cbn; lia].
  - eexists _, [], []. split; [symmetry; apply app_nil_r|].
    repeat split; try solve [none_of | constructor | congruence | cbn; lia].
  - exists (config_events g o ++ [EvWhich "ffmpeg" f] ++ pre_check_passed (modules g)),
      (limit_events W g gpus), [EvUiInit].
    split; [now rewrite <- !app_assoc|].
    split; [none_of|]. split; [none_of|]. split; [none_of|].
    rewrite limit_events_once. split; [lia|]. split; [reflexivity|].
    intros _. exists g, (config_events g o). split; [exact Hp|].
    rewrite !List.filter_app.
    rewrite (filter_none _ (config_events _ _)) by none_of.
    rewrite (filter_none _ [_]) by none_of.
    apply filter_all. none_of.
  - exists (config_events g o ++ [EvWhich "ffmpeg" f] ++ pre_check_passed (modules g)),
      (limit_events W g gpus), ts.
    split; [now rewrite <- !app_assoc|].
    split; [none_of|]. split; [none_of|].
    split; [now apply (start_trace_after_preflight g)|].
    rewrite limit_events_once. split; [lia|]. split; [reflexivity|].
    intros _. exists g, (config_events g o). split; [exact Hp|].
    rewrite !List.filter_app.
    rewrite (filter_none _ (config_events _ _)) by none_of.
    rewrite (filter_none _ [_]) by none_of.
    apply filter_all. none_of.
Qed.

End Governor.

Section GovernorOrder.

Variable W : World.

Local Abbreviation modules g := (get_frame_processors_modules W (frame_processors g)).

(** Reads a class of events off the class a part of the trace is known to
    be in. *)
Ltac by_class H :=
  eapply List.Forall_impl; [|exact H];
  let e := fresh "e" in intros e; destruct e; cbn; intuition congruence.

(** C7, as the code has it.  [limit_resources] runs at most once in a run;
    it comes after configuration resolution and after the modules'
    [pre_check] calls, not before them; when it runs, every configured
    module's [pre_check] has been called and has answered true; and it is
    over before any call of [start] or of the user interface, each of which
    is preceded by exactly one invocation. *)
Theorem limit_resources_after_pre_checks argv :
  occurrences is_limit_resources_call (trace (run W argv)) <= 1
  /\ all_before is_config_event is_limit_resources_event (trace (run W argv))
  /\ all_before is_module_pre_check is_limit_resources_event (trace (run W argv))
  /\ all_before is_limit_resources_event after_pre_check (trace (run W argv))
  /\ (forall e,
        In e (trace (run W argv)) ->
        is_limit_resources_event e = true ->
        exists g t,
          parse_args W argv [] = (t, Returned g)
          /\ List.filter is_module_pre_check (trace (run W argv))
             = pre_check_passed (modules g))
  /\ (forall e,
        In e (trace (run W argv)) ->
        after_pre_check e = true ->
        occurrences is_limit_resources_call (trace (run W argv)) = 1).
Proof.
  unfold trace.
  destruct (run_phases W argv [])
    as (b & l & a & -> & Hb & Hl & Ha & Hle & Hone & Hpass).
  assert (occurrences is_limit_resources_call b = 0) as Hb0
    by (apply occurrences_none; by_class Hb).
  assert (occurrences is_limit_resources_call a = 0) as Ha0
    by (apply occurrences_none; by_class Ha).
  split; [rewrite !occurrences_app; lia|].
  split.
  { apply all_before_split; [by_class Hb|].
    apply Forall_app. split; [by_class Hl|by_class Ha]. }
  split.
  { apply all_before_split; [by_class Hb|].
    apply Forall_app. split; [by_class Hl|by_class Ha]. }
  split.
  { rewrite app_assoc. apply all_before_split; [|by_class Ha].
    apply Forall_app. split; [by_class Hb|by_class Hl]. }
  split.
  - intros e Hin He.
    assert (l <> []) as Hne.
    { intros ->. cbn [app] in Hin. apply in_app_or in Hin as [Hin|Hin].
      - rewrite List.Forall_forall in Hb. destruct (Hb e Hin). congruence.
      - rewrite List.Forall_forall in Ha. destruct (Ha e Hin). congruence. }
    destruct (Hpass Hne) as (g & t & Hp & Hf). exists g, t. split; [exact Hp|].
    rewrite !List.filter_app, Hf.
    rewrite (filter_none _ l) by (by_class Hl).
    rewrite (filter_none _ a) by (by_class Ha).
    now rewrite !app_nil_r.
  - intros e Hin He.
    assert (a <> []) as Hne.
    { intros ->. rewrite app_nil_r in Hin. apply in_app_or in Hin as [Hin|Hin].
      - rewrite List.Forall_forall in Hb. destruct (Hb e Hin). congruence.
      - rewrite List.Forall_forall in Hl. specialize (Hl e Hin).
        destruct e; cbn in *; congruence. }
    rewrite !occurrences_app, Hb0, Ha0, (Hone Hne). reflexivity.
Qed.

End GovernorOrder.

Lemma all_before_decide P Q tr : all_before P Q tr -> all_beforeb P Q tr = true.
Proof.
  induction tr as [|e tr IH]; intros H; [reflexivity|].
  cbn [all_beforeb]. apply andb_true_intro. split.
  - destruct (Q e) eqn:Hq; [|reflexivity]. cbn [negb orb].
    specialize (H [] e tr eq_refl Hq).
    apply forallb_forall. intros x Hx.
    rewrite List.Forall_forall in H. now rewrite (H x Hx).
  - apply IH. intros pre q post E Hq. apply (H (e :: pre) q post); [|exact Hq].
    now rewrite E.
Qed.

(** C7, counterexample.  In the image job the module's [pre_check] is
    called before [limit_resources], so the claim's order (exactly one
    invocation, after configuration and before any [pre_check]) fails. *)
Lemma limit_resources_not_before_pre_check :
  ~ (occurrences is_limit_resources_call (trace (run photo_world photo_argv)) = 1
     /\ all_before is_config_event is_limit_resources_event
          (trace (run photo_world photo_argv))
     /\ all_before is_limit_resources_event is_module_pre_check
          (trace (run photo_world photo_argv))).
Proof.
  intros (_ & _ & H). apply all_before_decide in H. vm_compute in H. discriminate H.
Qed.

(** ** The verdict *)

(** The validity check of [start] is always made on the target path, and
    the line printed last is the verdict of that check. *)
Lemma verdict_follows_target_check W g h path valid :
  In (EvIsImage path valid) (fst (start W g h))
  \/ In (EvIsVideo path valid) (fst (start W g h)) ->
  path = target_path g
  /\ exists pre,
       fst (start W g h) = pre ++ [EvIsImage path valid; image_verdict valid]
       \/ fst (start W g h) = pre ++ [EvIsVideo path valid; video_verdict valid].
Proof.
  destruct (start_sound W g h) as [Hs _].
  remember (fst (start W g h)) as tr eqn:Htr. clear Htr.
  intros Hin.
  destruct Hs as [l1 m l2 Hl | v | fps0 | fps0 frames0 fps' created v Hf];
    destruct Hin as [Hin|Hin]; crack Hin.
  - injection Hin as <- <-. split; [reflexivity|].
    rewrite !app_assoc. eexists. left. reflexivity.
  - injection Hin as <- <-. split; [reflexivity|].
    rewrite !app_assoc. unfold clean_events.
    match goal with
    | |- exists pre, ?l ++ [?a; ?b; ?c; ?d] = _ \/ _ =>
        exists (l ++ [a; b]); right; now rewrite <- (app_assoc l)
    end.
Qed.

(** C2, at the failing inputs.  The image job [-s face.png -t photo.jpg
    -o swapped.dat] prints the success line because [is_image] holds of the
    target [photo.jpg]; the output [swapped.dat] is never checked and is no
    image.  Likewise the video job whose [create_video] failed prints success
    because [is_video] holds of the target [clip.mp4]. *)
Theorem success_reported_from_target_check :
  trace (run photo_world photo_argv)
  = [ EvSignal;
      EvNormalizeOutputPath (Some "face.png") (Some "photo.jpg")
        (Some "swapped.dat") (Some "swapped.dat");
      EvWhich "ffmpeg" (Some "/usr/bin/ffmpeg");
      EvPreCheck "face_swapper" true;
      EvListPhysicalDevices "GPU" [];
      EvSetrlimit 17179869184 17179869184;
      EvPreStart "face_swapper" true;
      EvHasImageExtension (Some "photo.jpg") true;
      EvCopy2 (Some "photo.jpg") (Some "swapped.dat");
      EvPrint "[face_swapper] Progressing...";
      EvProcessImage "face_swapper" (Some "face.png")
        (Some "swapped.dat") (Some "swapped.dat");
      EvPostProcess "face_swapper";
      EvIsImage (Some "photo.jpg") true;
      EvPrint "[ROOP.CORE] Processing to image succeed!" ]
  /\ w_is_image photo_world (trace (run photo_world photo_argv)) (Some "swapped.dat")
     = false
  /\ (exists pre,
        trace (run (clip_world clip_frames false) clip_argv)
        = pre ++ [ EvIsVideo (Some "clip.mp4") true;
                   EvPrint "[ROOP.CORE] Processing to video succeed!" ])
  /\ In (EvCreateVideo (Some "clip.mp4") (Some 24%Q) false)
       (trace (run (clip_world clip_frames false) clip_argv))
  /\ w_is_video (clip_world clip_frames false)
       (trace (run (clip_world clip_frames false) clip_argv)) (Some "swapped.mp4")
     = false.
Proof.
  split; [vm_compute; reflexivity|].
  split; [vm_compute; reflexivity|].
  split.
  - eexists (firstn 30 (trace (run (clip_world clip_frames false) clip_argv))).
    vm_compute. reflexivity.
  - split; [vm_compute; auto 40|vm_compute; reflexivity].
Qed.

(** ** The sample runs *)

(** Finds an event in a computed trace. *)
Ltac find_event := vm_compute; repeat (first [left; reflexivity | right]).

Example photo_settings :
  parse_args photo_world photo_argv []
  = (config_events photo_globals (Some "swapped.dat"), Returned photo_globals).
Proof. vm_compute. reflexivity. Qed.

Example clip_settings frames created :
  parse_args (clip_world frames created) clip_argv []
  = (config_events clip_globals (Some "swapped.mp4"), Returned clip_globals).
Proof. vm_compute. reflexivity. Qed.

Example unknown_arguments_exit :
  run photo_world ["--no-such-option"] [] = ([EvSignal], Exited).
Proof. vm_compute. reflexivity. Qed.

(** The corrupt video: no frame, no cleanup. *)
Lemma start_no_frames_skips_clean_temp_witness :
  In (EvGetTempFramePaths (Some "clip.mp4") [])
    (fst (start (clip_world [] true) clip_globals []))
  /\ In (EvCreateTemp (Some "clip.mp4"))
       (fst (start (clip_world [] true) clip_globals []))
  /\ forall p, ~ In (EvCleanTemp p) (fst (start (clip_world [] true) clip_globals [])).
Proof.
  assert (In (EvGetTempFramePaths (Some "clip.mp4") [])
            (fst (start (clip_world [] true) clip_globals []))) as H
    by find_event.
  split; [exact H|].
  exact (proj2 (proj2 (start_no_frames_skips_clean_temp
                         (clip_world [] true) clip_globals [] (Some "clip.mp4") H))).
Defined.

Lemma decode_execution_providers_empty_iff_unmatched_witness :
  decode_execution_providers ["CPUExecutionProvider"] ["cuda"] = []
  /\ In "CPUExecutionProvider" ["CUDAExecutionProvider"; "CPUExecutionProvider"].
Proof.
  split.
  - apply (proj1 (decode_execution_providers_empty_iff_unmatched
                    ["CPUExecutionProvider"] ["cuda"])).
    reflexivity.
  - apply (proj2 (decode_execution_providers_empty_iff_unmatched
                    ["CUDAExecutionProvider"; "CPUExecutionProvider"] ["cpu"])).
    vm_compute. left. reflexivity.
Defined.

(** The module that finds no face: the run stops at its [pre_start]. *)
Lemma preflight_failure_aborts_witness :
  In (EvPreStart "face_enhancer" false) (trace (run faceless_world photo_argv))
  /\ Forall (fun e => writes_files e = false) (trace (run faceless_world photo_argv)).
Proof.
  assert (In (EvPreStart "face_enhancer" false) (trace (run faceless_world photo_argv)))
    as H by find_event.
  split; [exact H|].
  exact (proj2 (proj2 (proj1 (preflight_failure_aborts faceless_world photo_argv
                                "face_enhancer") (or_intror H)))).
Defined.

Lemma stages_run_in_registration_order_witness :
  stage_calls (fst (start photo_world photo_globals []))
  = [ EvProcessImage "face_swapper" (Some "face.png")
        (Some "swapped.dat") (Some "swapped.dat");
      EvPostProcess "face_swapper" ]
  /\ stage_calls (fst (start (clip_world clip_frames true) clip_globals []))
     = [ EvProcessVideo "face_swapper" (Some "face.png") clip_frames;
         EvPostProcess "face_swapper";
         EvProcessVideo "face_enhancer" (Some "face.png") clip_frames;
         EvPostProcess "face_enhancer" ].
Proof.
  split.
  - apply (proj1 (stages_run_in_registration_order photo_world photo_globals [])).
    find_event.
  - apply (proj2 (stages_run_in_registration_order
                    (clip_world clip_frames true) clip_globals []) clip_frames).
    + discriminate.
    + find_event.
Defined.

Lemma limit_resources_after_pre_checks_witness :
  List.filter is_module_pre_check (trace (run photo_world photo_argv))
  = [EvPreCheck "face_swapper" true]
  /\ occurrences is_limit_resources_call (trace (run photo_world photo_argv)) = 1.
Proof.
  pose proof (limit_resources_after_pre_checks photo_world photo_argv)
    as (_ & _ & _ & _ & Hpass & Hone).
  split.
  - destruct (Hpass (EvListPhysicalDevices "GPU" [])) as (g & t & Hp & Hf).
    + find_event.
    + reflexivity.
    + rewrite photo_settings in Hp. injection Hp as _ <-. exact Hf.
  - apply (Hone (EvCopy2 (Some "photo.jpg") (Some "swapped.dat"))).
    + find_event.
    + reflexivity.
Defined.

(** The video whose assembly fails: audio and cleanup still happen. *)
Lemma create_video_failure_is_not_fatal_witness :
  In (EvCreateVideo (Some "clip.mp4") (Some 24%Q) false)
    (fst (start (clip_world clip_frames false) clip_globals []))
  /\ snd (start (clip_world clip_frames false) clip_globals []) = Returned tt
  /\ exists pre valid,
       fst (start (clip_world clip_frames false) clip_globals [])
       = pre
         ++ [ EvCreateVideo (Some "clip.mp4") (Some 24%Q) false;
              status "Creating video failed..." ROOP_CORE ]
         ++ audio_events clip_globals
         ++ clean_events clip_globals valid.
Proof.
  assert (In (EvCreateVideo (Some "clip.mp4") (Some 24%Q) false)
            (fst (start (clip_world clip_frames false) clip_globals []))) as H
    by find_event.
  split; [exact H|].
  pose proof (create_video_failure_is_not_fatal
                (clip_world clip_frames false) clip_globals []
                (Some "clip.mp4") (Some 24%Q) H) as (Ho & Hshape & _).
  split; [exact Ho|exact Hshape].
Defined.

Lemma keep_fps_always_true_witness :
  keep_fps clip_globals = true
  /\ exists rate,
       Some 24%Q = Some rate
       /\ In (EvDetectFps (Some "clip.mp4") rate)
            (trace (run (clip_world clip_frames true) clip_argv)).
Proof.
  pose proof (keep_fps_always_true (clip_world clip_frames true) clip_argv)
    as (Hk & He & _).
  split.
  - apply (Hk [] _ clip_globals (clip_settings clip_frames true)).
  - apply (He (Some "clip.mp4") (Some 24%Q)). find_event.
Defined.

(** * Further properties *)

(** ** Substrings *)

Lemma prefix_split (p s : string) :
  String.prefix p s = true <-> exists rest, s = (p ++ rest)%string.
Proof.
  revert s. induction p as [|a p IH]; intros s.
  - split; [intros _; exists s; reflexivity|intros _; destruct s; reflexivity].
  - destruct s as [|b s]; cbn [String.prefix].
    + split; [discriminate|]. intros (rest & E). discriminate E.
    + destruct (ascii_dec a b) as [->|Hne].
      * rewrite IH. split; intros (rest & E); exists rest.
        -- cbn. now rewrite E.
        -- cbn in E. now injection E.
      * split; [discriminate|]. intros (rest & E). cbn in E. injection E as E _.
        congruence.
Qed.

(** [needle in hay] holds exactly when [hay] splits around [needle]. *)
Lemma contains_split (needle hay : string) :
  contains needle hay = true
  <-> exists before after, hay = (before ++ needle ++ after)%string.
Proof.
  split.
  - induction hay as [|c hay IH]; cbn [contains].
    + intros H. apply prefix_split in H as (rest & E). exists "", rest. exact E.
    + intros H. apply orb_true_iff in H as [H|H].
      * apply prefix_split in H as (rest & E). exists "", rest. exact E.
      * destruct (IH H) as (b & a & E). exists (String c b), a. cbn. now rewrite E.
  - intros (before & after & E). revert hay E.
    induction before as [|c before IH]; intros hay E.
    + cbn in E.
      assert (String.prefix needle hay = true) as Hp
        by (apply prefix_split; exists after; exact E).
      destruct hay; cbn [contains]; [exact Hp|]. now rewrite Hp.
    + cbn in E. subst hay. cbn [contains].
      rewrite (IH _ eq_refl). apply orb_true_r.
Qed.

Lemma contains_refl (s : string) : contains s s = true.
Proof.
  apply contains_split. exists "", "". cbn.
  induction s as [|c s IH]; cbn; [reflexivity|now rewrite <- IH].
Qed.

Lemma contains_empty (s : string) : contains "" s = true.
Proof. destruct s; reflexivity. Qed.

(** ** Execution providers, further *)

Section Selection.

Context {A B : Type}.

Lemma combine_map_self (f : A -> B) (l : list A) :
  combine l (map f l) = map (fun x => (x, f x)) l.
Proof. induction l as [|x l IH]; cbn; [reflexivity|now rewrite IH]. Qed.

Lemma filter_true (keep : A -> bool) (l : list A) :
  (forall x, In x l -> keep x = true) -> List.filter keep l = l.
Proof.
  induction l as [|x l IH]; intros H; cbn; [reflexivity|].
  rewrite (H x (or_introl eq_refl)), IH; [reflexivity|].
  intros y Hy. apply H. now right.
Qed.

Lemma map_fst_graph (f : A -> B) (l : list A) :
  map fst (map (fun x => (x, f x)) l) = l.
Proof. induction l as [|x l IH]; cbn; [reflexivity|now rewrite IH]. Qed.

Lemma filter_weaker_sublist (p q : A * B -> bool) (l : list (A * B)) :
  (forall x, In x l -> p x = true -> q x = true) ->
  map fst (List.filter p l) `sublist_of` map fst (List.filter q l).
Proof.
  induction l as [|x l IH]; intros H; cbn; [constructor|].
  assert (map fst (List.filter p l) `sublist_of` map fst (List.filter q l)) as IH'
    by (apply IH; intros y Hy; apply H; now right).
  destruct (p x) eqn:Hp.
  - rewrite (H x (or_introl eq_refl) Hp). cbn. now apply sublist_skip.
  - destruct (q x); cbn; [now apply sublist_cons|exact IH'].
Qed.

End Selection.

(** How [decode_execution_providers] reads: the available providers whose
    encoded name has a requested token in it. *)
Lemma decode_as_filter (available requested : list string) :
  decode_execution_providers available requested
  = List.filter
      (fun provider =>
         existsb
           (fun token => contains token (lower (replace "ExecutionProvider" "" provider)))
           requested)
      available.
Proof.
  unfold decode_execution_providers, encode_execution_providers.
  rewrite combine_map_self.
  induction available as [|p l IH]; cbn [map List.filter fst snd]; [reflexivity|].
  destruct (existsb _ requested); cbn [map fst]; now rewrite IH.
Qed.

(** X1.  A provider is resolved exactly when the runtime reports it and some
    requested token is a substring of its encoded name. *)
Theorem decode_execution_providers_selects (available requested : list string)
  (provider : string) :
  In provider (decode_execution_providers available requested)
  <-> In provider available
      /\ exists token,
           In token requested
           /\ exists before after,
                lower (replace "ExecutionProvider" "" provider)
                = (before ++ token ++ after)%string.
Proof.
  rewrite decode_as_filter, filter_In, existsb_exists.
  split; intros (Hin & token & Ht & H); (split; [exact Hin|]); exists token;
    (split; [exact Ht|]); now apply contains_split.
Qed.

(** X2.  Requesting every name that [suggest_execution_providers] offers
    resolves to the whole list the runtime reports, unchanged. *)
Theorem decode_suggested_is_available (available : list string) :
  decode_execution_providers available (suggest_execution_providers available)
  = available.
Proof.
  rewrite decode_as_filter. apply filter_true. intros p Hp.
  apply existsb_exists. exists (lower (replace "ExecutionProvider" "" p)).
  split; [|apply contains_refl].
  unfold suggest_execution_providers, encode_execution_providers.
  apply in_map_iff. exists p. split; [reflexivity|exact Hp].
Qed.

(** X3.  Only the set of requested tokens matters: their order and their
    repetitions do not change the result. *)
Theorem decode_ignores_request_order (available requested requested' : list string) :
  (forall token, In token requested <-> In token requested') ->
  decode_execution_providers available requested
  = decode_execution_providers available requested'.
Proof.
  intros Hsame. rewrite !decode_as_filter. apply List.filter_ext. intros p.
  apply Bool.eq_iff_eq_true. rewrite !existsb_exists.
  split; intros (token & Ht & H); exists token; (split; [now apply Hsame|exact H]).
Qed.

(** X4.  Asking for more never loses a provider: the result for a request is a
    sub-sequence of the result for any request that contains its tokens. *)
Theorem decode_monotone (available requested requested' : list string) :
  (forall token, In token requested -> In token requested') ->
  decode_execution_providers available requested
  `sublist_of` decode_execution_providers available requested'.
Proof.
  intros Hincl. unfold decode_execution_providers.
  apply filter_weaker_sublist. intros [p e] _. cbn [snd].
  rewrite !existsb_exists. intros (token & Ht & H). exists token.
  split; [now apply Hincl|exact H].
Qed.

(** X5.  The edges: an empty request or an empty runtime list resolves to
    nothing, and a request that contains the empty string resolves to every
    available provider (the empty string is in every name). *)
Theorem decode_edge_requests (available requested : list string) :
  decode_execution_providers available [] = []
  /\ decode_execution_providers [] requested = []
  /\ (In "" requested -> decode_execution_providers available requested = available).
Proof.
  split; [now apply decode_nil_iff|]. split; [reflexivity|].
  intros Hin. rewrite decode_as_filter. apply filter_true. intros p _.
  apply existsb_exists. exists "". split; [exact Hin|apply contains_empty].
Qed.

(** *** Encoded names are in canonical form *)

Lemma lower_ascii_idempotent (c : ascii) : lower_ascii (lower_ascii c) = lower_ascii c.
Proof. destruct c as [[] [] [] [] [] [] [] []]; reflexivity. Qed.

Lemma lower_ascii_not_E (c : ascii) : lower_ascii c <> "E"%char.
Proof. destruct c as [[] [] [] [] [] [] [] []]; discriminate. Qed.

Lemma lower_idempotent (s : string) : lower (lower s) = lower s.
Proof.
  induction s as [|c s IH]; cbn [lower]; [reflexivity|].
  now rewrite lower_ascii_idempotent, IH.
Qed.

Lemma lower_length (s : string) : String.length (lower s) = String.length s.
Proof. induction s as [|c s IH]; cbn; [reflexivity|now rewrite IH]. Qed.

(** A lower-cased name has no [E], hence no occurrence of the suffix. *)
Lemma replace_lower (s : string) :
  replace "ExecutionProvider" "" (lower s) = lower s.
Proof.
  change (replace "ExecutionProvider" "" (lower s))
    with (replace_from "ExecutionProvider" "" 0 (lower s)).
  induction s as [|c s IH]; [reflexivity|].
  cbn [lower replace_from].
  change (String.prefix "ExecutionProvider" (String (lower_ascii c) (lower s)))
    with (if ascii_dec "E" (lower_ascii c)
          then String.prefix "xecutionProvider" (lower s) else false).
  destruct (ascii_dec "E" (lower_ascii c)) as [E|_].
  - exfalso. now apply (lower_ascii_not_E c).
  - now rewrite IH.
Qed.

(** X6.  Encoding keeps the number and the order of the names, and an encoded
    name encodes to itself: the names [suggest_execution_providers] offers
    are exactly the tokens that [decode_execution_providers] compares
    against. *)
Theorem encode_execution_providers_idempotent (execution_providers : list string) :
  encode_execution_providers (encode_execution_providers execution_providers)
  = encode_execution_providers execution_providers
  /\ length (encode_execution_providers execution_providers)
     = length execution_providers.
Proof.
  unfold encode_execution_providers. split; [|apply length_map].
  rewrite map_map. apply map_ext. intros p.
  now rewrite replace_lower, lower_idempotent.
Qed.

(** ** Settings *)

Section Settings.

Variable W : World.

Lemma parse_args_settings argv h t g :
  parse_args W argv h = (t, Returned g) ->
  exists cl,
    read_command_line W argv = Some cl
    /\ choices_respected W cl = true
    /\ source_path g = cl_source_path cl
    /\ target_path g = cl_target_path cl
    /\ temp_frame_format g = value_or "jpg" (cl_temp_frame_format cl)
    /\ temp_frame_quality g = value_or 1%Z (cl_temp_frame_quality cl)
    /\ output_video_encoder g = value_or "libx264" (cl_output_video_encoder cl)
    /\ output_video_quality g = value_or 35%Z (cl_output_video_quality cl)
    /\ execution_providers g
       = decode_execution_providers (available_providers W)
           (value_or ["cpu"] (cl_execution_providers cl))
    /\ execution_thread_count g
       = value_or (suggest_execution_thread_count (available_providers W))
           (cl_execution_thread_count cl)
    /\ headless g
       = match source_path g, target_path g, output_path g with
         | Some _, Some _, Some _ => true
         | _, _, _ => false
         end.
Proof.
  unfold parse_args, bind, normalize_output_path, tell, ask, ret, sys_exit.
  destruct (read_command_line W argv) as [cl|]; [|discriminate].
  destruct (choices_respected W cl) eqn:Hc; cbn [negb]; cbv beta iota; [|discriminate].
  intros E. injection E as _ <-. exists cl. repeat split; solve [reflexivity | exact Hc].
Qed.

Lemma in_choices_In (choices : list string) (given : option string) (default : string) :
  in_choices String.eqb choices given = true ->
  In default choices ->
  In (value_or default given) choices.
Proof.
  destruct given as [v|]; cbn; [|tauto]. intros H _.
  apply existsb_exists in H as (c & Hc & E). apply String.eqb_eq in E. now subst.
Qed.

Lemma in_range_101_bounds (given : option Z) (default : Z) :
  in_range_101 given = true ->
  (0 <= default <= 100)%Z ->
  (0 <= value_or default given <= 100)%Z.
Proof.
  destruct given as [v|]; cbn; [|tauto]. intros H _.
  apply andb_true_iff in H as [H1 H2]. lia.
Qed.

(** X7.  The settings [parse_args] returns respect the [choices] of the
    options, whether a value was given or the default was taken; the
    execution providers are a sub-sequence of the runtime's. *)
Theorem parse_args_respects_choices argv h t g :
  parse_args W argv h = (t, Returned g) ->
  In (temp_frame_format g) ["jpg"; "png"]
  /\ (0 <= temp_frame_quality g <= 100)%Z
  /\ In (output_video_encoder g)
       ["libx264"; "libx265"; "libvpx-vp9"; "h264_nvenc"; "hevc_nvenc"]
  /\ (0 <= output_video_quality g <= 100)%Z
  /\ execution_providers g `sublist_of` available_providers W.
Proof.
  intros Hp.
  destruct (parse_args_settings argv h t g Hp)
    as (cl & _ & Hc & _ & _ & -> & -> & -> & -> & -> & _).
  unfold choices_respected in Hc.
  repeat (apply andb_true_iff in Hc as [Hc ?]).
  split; [apply in_choices_In; [assumption|cbn; tauto]|].
  split; [apply in_range_101_bounds; [assumption|lia]|].
  split; [apply in_choices_In; [assumption|cbn; tauto]|].
  split; [apply in_range_101_bounds; [assumption|lia]|].
  apply filtered_combine_sublist.
Qed.

(** X8.  Every token given to [--execution-providers] and accepted by argparse
    is the encoded name of a provider that is then resolved; so an explicit
    request never resolves to the empty list. *)
Theorem explicit_providers_resolve argv h t g cl tokens :
  parse_args W argv h = (t, Returned g) ->
  read_command_line W argv = Some cl ->
  cl_execution_providers cl = Some tokens ->
  (forall token,
     In token tokens ->
     exists provider,
       In provider (execution_providers g)
       /\ lower (replace "ExecutionProvider" "" provider) = token)
  /\ (tokens <> [] -> execution_providers g <> []).
Proof.
  intros Hp Hr Ht.
  destruct (parse_args_settings argv h t g Hp)
    as (cl' & Hr' & Hc & _ & _ & _ & _ & _ & _ & -> & _).
  rewrite Hr in Hr'. injection Hr' as <-. rewrite Ht. cbn [value_or].
  unfold choices_respected in Hc. apply andb_true_iff in Hc as [_ Hc].
  rewrite Ht in Hc. cbn [all_in_choices] in Hc. rewrite forallb_forall in Hc.
  assert (forall token,
            In token tokens ->
            exists provider,
              In provider (decode_execution_providers (available_providers W) tokens)
              /\ lower (replace "ExecutionProvider" "" provider) = token) as Hall.
  { intros token Hin. specialize (Hc token Hin).
    apply existsb_exists in Hc as (choice & Hchoice & E).
    apply String.eqb_eq in E. subst choice.
    unfold suggest_execution_providers, encode_execution_providers in Hchoice.
    apply in_map_iff in Hchoice as (p & Hp' & Hin').
    exists p. split; [|exact Hp'].
    rewrite decode_as_filter. apply filter_In. split; [exact Hin'|].
    apply existsb_exists. exists token. split; [exact Hin|].
    rewrite Hp'. apply contains_refl. }
  split; [exact Hall|].
  intros Hne Hnil. destruct tokens as [|token tokens]; [congruence|].
  destruct (Hall token (or_introl eq_refl)) as (p & Hin & _).
  rewrite Hnil in Hin. destruct Hin.
Qed.

(** X9.  Without [--execution-providers] the request is [cpu]: the CPU provider
    is resolved whenever the runtime reports it, and every resolved provider
    has [cpu] in its encoded name. *)
Theorem default_provider_is_cpu argv h t g cl :
  parse_args W argv h = (t, Returned g) ->
  read_command_line W argv = Some cl ->
  cl_execution_providers cl = None ->
  (In "CPUExecutionProvider" (available_providers W) ->
   In "CPUExecutionProvider" (execution_providers g))
  /\ (forall provider,
        In provider (execution_providers g) ->
        contains "cpu" (lower (replace "ExecutionProvider" "" provider)) = true).
Proof.
  intros Hp Hr Hn.
  destruct (parse_args_settings argv h t g Hp)
    as (cl' & Hr' & _ & _ & _ & _ & _ & _ & _ & -> & _).
  rewrite Hr in Hr'. injection Hr' as <-. rewrite Hn. cbn [value_or].
  rewrite decode_as_filter. split.
  - intros Hin. apply filter_In. split; [exact Hin|reflexivity].
  - intros p Hin. apply filter_In in Hin as [_ Hin].
    cbn [existsb] in Hin. now rewrite orb_false_r in Hin.
Qed.

(** X10.  Without [--execution-thread-count] the thread count is 4 when the
    runtime reports the provider named [CUDAExecutionProvider], and 1
    otherwise. *)
Theorem default_thread_count argv h t g cl :
  parse_args W argv h = (t, Returned g) ->
  read_command_line W argv = Some cl ->
  cl_execution_thread_count cl = None ->
  (execution_thread_count g = 4%Z /\ In "CUDAExecutionProvider" (available_providers W))
  \/ (execution_thread_count g = 1%Z
      /\ ~ In "CUDAExecutionProvider" (available_providers W)).
Proof.
  intros Hp Hr Hn.
  destruct (parse_args_settings argv h t g Hp)
    as (cl' & Hr' & _ & _ & _ & _ & _ & _ & _ & _ & -> & _).
  rewrite Hr in Hr'. injection Hr' as <-. rewrite Hn. cbn [value_or].
  unfold suggest_execution_thread_count.
  destruct (existsb (String.eqb "CUDAExecutionProvider") (available_providers W)) eqn:E.
  - left. split; [reflexivity|].
    apply existsb_exists in E as (p & Hin & E). apply String.eqb_eq in E. now subst.
  - right. split; [reflexivity|]. intros Hin.
    assert (existsb (String.eqb "CUDAExecutionProvider") (available_providers W) = true)
      as E' by (apply existsb_exists; eexists; split; [exact Hin|apply String.eqb_refl]).
    congruence.
Qed.

End Settings.

(** ** The pipeline, further *)

Section PipelineMore.

Variable W : World.

Local Abbreviation modules g := (get_frame_processors_modules W (frame_processors g)).

(** X11.  An image target never gets a workspace: none of the calls of the video
    path (workspace, frames, ffmpeg, audio, cleanup) is made. *)
Theorem image_path_has_no_workspace g h path :
  In (EvHasImageExtension path true) (fst (start W g h)) ->
  Forall (fun e => is_video_call e = false) (fst (start W g h)).
Proof.
  destruct (start_sound W g h) as [Hs _].
  remember (fst (start W g h)) as tr eqn:Htr. clear Htr.
  intros Hin.
  destruct Hs as [l1 m l2 Hl | valid | fps0 | fps0 frames0 fps' created valid Hf];
    crack Hin.
  none_of.
Qed.

(** X12.  On the image path the target is copied to the output path exactly
    once, before any stage call, and every [process_image] call reads and
    writes that copy: the target file itself is never handed to a stage. *)
Theorem image_path_works_on_the_copy g h path :
  In (EvHasImageExtension path true) (fst (start W g h)) ->
  occurrences is_copy2 (fst (start W g h)) = 1
  /\ In (EvCopy2 (target_path g) (output_path g)) (fst (start W g h))
  /\ all_before is_copy2 is_stage_call (fst (start W g h))
  /\ (forall name source target output,
        In (EvProcessImage name source target output) (fst (start W g h)) ->
        source = source_path g /\ target = output_path g /\ output = output_path g).
Proof.
  destruct (start_sound W g h) as [Hs _].
  remember (fst (start W g h)) as tr eqn:Htr. clear Htr.
  intros Hin.
  destruct Hs as [l1 m l2 Hl | valid | fps0 | fps0 frames0 fps' created valid Hf];
    crack Hin.
  clear Hin. split; [|split; [|split]].
  - rewrite !occurrences_app.
    rewrite (occurrences_none _ (pre_start_passed _)) by none_of.
    rewrite (occurrences_none _ (flat_map _ _)) by none_of.
    rewrite (occurrences_none _ [_; image_verdict _]) by none_of.
    reflexivity.
  - rewrite !in_app_iff. cbn [In]. tauto.
  - rewrite (app_assoc (pre_start_passed _)).
    apply all_before_split; none_of.
  - intros name source target output Hp. crack Hp.
    injection Hp as _ <- <- <-. repeat split.
Qed.

(** X13.  The workspace is cleaned at most once, nothing reads or writes its
    frames after that, and it is cleaned (once) whenever frames were found. *)
Theorem workspace_cleaned_once_after_use g h :
  occurrences is_clean_temp (fst (start W g h)) <= 1
  /\ all_before uses_workspace is_clean_temp (fst (start W g h))
  /\ (forall frames,
        frames <> [] ->
        In (EvGetTempFramePaths (target_path g) frames) (fst (start W g h)) ->
        occurrences is_clean_temp (fst (start W g h)) = 1
        /\ In (EvCleanTemp (target_path g)) (fst (start W g h))).
Proof.
  destruct (start_sound W g h) as [Hs _].
  remember (fst (start W g h)) as tr eqn:Htr. clear Htr.
  destruct Hs as [l1 m l2 Hl | valid | fps0 | fps0 frames0 fps' created valid Hf].
  - split; [rewrite occurrences_none by none_of; lia|].
    split; [rewrite <- (app_nil_r (_ ++ _)); apply all_before_split; none_of|].
    intros frames _ Hin. crack Hin.
  - split; [rewrite occurrences_none by none_of; lia|].
    split; [rewrite <- (app_nil_r (_ ++ _)); apply all_before_split; none_of|].
    intros frames _ Hin. crack Hin.
  - split; [rewrite occurrences_none by none_of; lia|].
    split; [rewrite <- (app_nil_r (_ ++ _)); apply all_before_split; none_of|].
    intros frames Hne Hin. crack Hin. injection Hin as <-. congruence.
  - assert (occurrences is_clean_temp
              (pre_start_passed (modules g)
               ++ [ EvHasImageExtension (target_path g) false;
                    status "Creating temporary resources..." ROOP_CORE;
                    EvCreateTemp (target_path g) ]
               ++ extract_events W g fps0
               ++ [ EvGetTempFramePaths (target_path g) frames0 ]
               ++ flat_map (video_stage g frames0) (modules g)
               ++ create_video_events W g fps' created
               ++ audio_events g
               ++ clean_events g valid) = 1) as Hone.
    { rewrite !occurrences_app.
      rewrite (occurrences_none _ (pre_start_passed _)) by none_of.
      rewrite (occurrences_none _ [_; _; _]) by none_of.
      rewrite (occurrences_none _ (extract_events _ _ _)) by none_of.
      rewrite (occurrences_none _ [_]) by none_of.
      rewrite (occurrences_none _ (flat_map _ _)) by none_of.
      rewrite (occurrences_none _ (create_video_events _ _ _ _)) by none_of.
      rewrite (occurrences_none _ (audio_events _)) by none_of.
      destruct valid; reflexivity. }
    split; [rewrite Hone; lia|]. split.
    + rewrite !app_assoc. apply all_before_split; none_of.
    + intros frames _ _. split; [exact Hone|].
      rewrite !in_app_iff. unfold clean_events. cbn [In]. tauto.
Qed.

(** X14.  The audio step is one of two: with [skip_audio] the silent video is
    moved to the output and [restore_audio] is not called; without it
    [restore_audio] is called and [move_temp] is not.  Both act on the
    target and the output path. *)
Theorem audio_step_is_exclusive g h :
  (forall target output,
     In (EvMoveTemp target output) (fst (start W g h)) ->
     skip_audio g = true
     /\ target = target_path g /\ output = output_path g
     /\ forall target' output', ~ In (EvRestoreAudio target' output') (fst (start W g h)))
  /\ (forall target output,
        In (EvRestoreAudio target output) (fst (start W g h)) ->
        skip_audio g = false
        /\ target = target_path g /\ output = output_path g
        /\ forall target' output', ~ In (EvMoveTemp target' output') (fst (start W g h))).
Proof.
  destruct (start_sound W g h) as [Hs _].
  remember (fst (start W g h)) as tr eqn:Htr. clear Htr.
  unfold audio_events in Hs.
  split; intros target output Hin;
    destruct Hs as [l1 m l2 Hl | valid | fps0 | fps0 frames0 fps' created valid Hf];
    unfold audio_events in *; destruct (skip_audio g) eqn:Hskip;
    crack Hin; injection Hin as <- <-;
    (split; [reflexivity|]); (split; [reflexivity|]); (split; [reflexivity|]);
    intros target' output' Hin'; crack Hin'.
Qed.

(** X15.  The frame rate given to [extract_frames] and to [create_video] follows
    [keep_fps], for any settings: with it, the rate is the one a
    [detect_fps] call on the same target answered; without it, no rate is
    given and [detect_fps] is never called. *)
Theorem frame_rate_follows_keep_fps g h :
  (forall target fps,
     In (EvExtractFrames target fps) (fst (start W g h)) ->
     if keep_fps g
     then exists rate, fps = Some rate /\ In (EvDetectFps target rate) (fst (start W g h))
     else fps = None)
  /\ (forall target fps created,
        In (EvCreateVideo target fps created) (fst (start W g h)) ->
        if keep_fps g
        then exists rate,
               fps = Some rate /\ In (EvDetectFps target rate) (fst (start W g h))
        else fps = None)
  /\ (keep_fps g = false ->
      forall target rate, ~ In (EvDetectFps target rate) (fst (start W g h))).
Proof.
  destruct (start_sound W g h) as [Hs _].
  remember (fst (start W g h)) as tr eqn:Htr. clear Htr.
  split; [|split].
  - intros target fps Hin.
    destruct Hs as [l1 m l2 Hl | valid | fps0 | fps0 frames0 fps' created valid Hf];
      unfold extract_events, create_video_events in *;
      destruct (keep_fps g) eqn:Hk; crack Hin; injection Hin as <- <-;
      try reflexivity;
      (eexists; split; [reflexivity|]); rewrite !in_app_iff; cbn [In]; tauto.
  - intros target fps c Hin.
    destruct Hs as [l1 m l2 Hl | valid | fps0 | fps0 frames0 fps' created valid Hf];
      unfold extract_events, create_video_events in *;
      destruct (keep_fps g) eqn:Hk; crack Hin; injection Hin as <- <- <-;
      try reflexivity;
      (eexists; split; [reflexivity|]); rewrite !in_app_iff; cbn [In]; tauto.
  - intros Hk target rate Hin.
    destruct Hs as [l1 m l2 Hl | valid | fps0 | fps0 frames0 fps' created valid Hf];
      unfold extract_events, create_video_events, audio_events in *;
      rewrite ?Hk in *; crack Hin.
Qed.

(** X16.  [pre_start] is asked of the modules in the order they are listed, each
    once, up to the first that answers false; the modules after that one
    are never asked, and nothing else is done. *)
Theorem pre_start_in_order_until_failure g h :
  List.filter is_module_pre_start (fst (start W g h)) = pre_start_passed (modules g)
  \/ exists l1 m l2,
       modules g = l1 ++ m :: l2
       /\ fst (start W g h)
          = pre_start_passed l1 ++ [EvPreStart (FrameProcessor.NAME m) false].
Proof.
  destruct (start_sound W g h) as [Hs _].
  remember (fst (start W g h)) as tr eqn:Htr. clear Htr.
  destruct Hs as [l1 m l2 Hl | valid | fps0 | fps0 frames0 fps' created valid Hf].
  - right. now exists l1, m, l2.
  - left. rewrite !List.filter_app.
    rewrite (filter_all _ (pre_start_passed _)) by none_of.
    rewrite (filter_none _ [_; _]) by none_of.
    rewrite (filter_none _ (flat_map _ _)) by none_of.
    rewrite (filter_none _ [_; image_verdict _]) by none_of.
    now rewrite !app_nil_r.
  - left. rewrite !List.filter_app.
    rewrite (filter_all _ (pre_start_passed _)) by none_of.
    rewrite (filter_none _ [_; _; _]) by none_of.
    rewrite (filter_none _ (extract_events _ _ _)) by none_of.
    rewrite (filter_none _ [_; _]) by none_of.
    now rewrite !app_nil_r.
  - left. rewrite !List.filter_app.
    rewrite (filter_all _ (pre_start_passed _)) by none_of.
    rewrite (filter_none _ [_; _; _]) by none_of.
    rewrite (filter_none _ (extract_events _ _ _)) by none_of.
    rewrite (filter_none _ [_]) by none_of.
    rewrite (filter_none _ (flat_map _ _)) by none_of.
    rewrite (filter_none _ (create_video_events _ _ _ _)) by none_of.
    rewrite (filter_none _ (audio_events _)) by none_of.
    rewrite (filter_none _ (clean_events _ _)) by none_of.
    now rewrite !app_nil_r.
Qed.

End PipelineMore.

(** ** The run, further *)

Section RunMore.

Variable W : World.

Local Abbreviation modules g := (get_frame_processors_modules W (frame_processors g)).

Lemma pre_check_unsupported h :
  version_lt_3_10 (version_info W) = true ->
  pre_check W h
  = ([status "Python version is not supported - please upgrade to 3.10 or higher."
        ROOP_CORE], Returned false).
Proof. intros Hv. unfold pre_check. now rewrite Hv. Qed.

(** X18.  When the core [pre_check] fails the run stops there.  Under a Python
    older than 3.10 it only resolves the configuration and prints: ffmpeg
    is not looked for, no module is asked, nothing is limited.  When ffmpeg
    is not found, the look-up and the status line are the last events and
    only the configuration came before. *)
Theorem core_pre_check_failure_stops_run argv :
  (version_lt_3_10 (version_info W) = true ->
   Forall (fun e => is_config_event e || is_status_line e = true) (trace (run W argv)))
  /\ (forall ffmpeg,
        In (EvWhich "ffmpeg" ffmpeg) (trace (run W argv)) ->
        truthy ffmpeg = false ->
        outcome (run W argv) = Returned tt
        /\ exists pre,
             trace (run W argv)
             = pre ++ [ EvWhich "ffmpeg" ffmpeg;
                        status "ffmpeg is not installed." ROOP_CORE ]
             /\ Forall (fun e => is_config_event e = true) pre).
Proof.
  split.
  - intros Hv. unfold trace, run, bind.
    destruct (parse_args_run W argv []) as [E | (cl & g & _ & _ & E & _)]; rewrite E.
    + repeat constructor.
    + rewrite (pre_check_unsupported _ Hv). cbn [negb]. cbv beta iota.
      unfold ret. cbn [fst]. repeat constructor.
  - unfold trace, outcome. pose proof (run_sound W argv []) as Hr.
    destruct (run W argv []) as [tr o]. cbn [fst snd] in *.
    intros ffmpeg Hin Hf.
    destruct Hr as [Hp | g o Hp | g o f Hp Hf' | g o f l1 m l2 Hp Hf' Hl
                   | g o f gpus Hp Hf' Hh | g o f gpus ts Hp Hf' Hh Hs].
    + crack Hin.
    + crack Hin.
    + crack Hin. injection Hin as <-. split; [reflexivity|].
      eexists. split; [reflexivity|]. repeat constructor.
    + crack Hin. injection Hin as <-. congruence.
    + crack Hin. injection Hin as <-. congruence.
    + apply in_app_or in Hin as [Hin|Hin]; [crack Hin|].
      apply in_app_or in Hin as [Hin|Hin];
        [crack Hin; injection Hin as <-; congruence|].
      apply in_app_or in Hin as [Hin|Hin]; [crack Hin|].
      apply in_app_or in Hin as [Hin|Hin]; [crack Hin|].
      destruct Hs as [k1 m k2 Hl | valid | fps0 | fps0 frames0 fps' created valid Hne];
        crack Hin.
Qed.

(** X19.  The user interface is started only when the settings are not headless,
    that is when the source, the target or the (normalized) output path is
    missing; it is then the last thing [run] does, after the whole
    preflight and [limit_resources], and no call of [start] is made. *)
Theorem ui_is_started_without_paths argv :
  In EvUiInit (trace (run W argv)) ->
  exists pre g t,
    trace (run W argv) = pre ++ [EvUiInit]
    /\ parse_args W argv [] = (t, Returned g)
    /\ headless g = false
    /\ (source_path g = None \/ target_path g = None \/ output_path g = None)
    /\ Forall (fun e => after_pre_check e = false) pre
    /\ occurrences is_limit_resources_call pre = 1.
Proof.
  unfold trace. pose proof (run_sound W argv []) as Hr.
  destruct (run W argv []) as [tr o]. cbn [fst snd] in *.
  intros Hin.
  destruct Hr as [Hp | g o Hp | g o f Hp Hf | g o f l1 m l2 Hp Hf Hl
                 | g o f gpus Hp Hf Hh | g o f gpus ts Hp Hf Hh Hs].
  - crack Hin.
  - crack Hin.
  - crack Hin.
  - crack Hin.
  - clear Hin.
    exists (config_events g o ++ [EvWhich "ffmpeg" f] ++ pre_check_passed (modules g)
            ++ limit_events W g gpus), g, (config_events g o).
    split; [now rewrite <- !app_assoc|]. split; [exact Hp|]. split; [exact Hh|].
    split.
    + destruct (parse_args_settings W argv [] _ g Hp)
        as (cl & _ & _ & _ & _ & _ & _ & _ & _ & _ & _ & Hhead).
      rewrite Hh in Hhead.
      destruct (source_path g); [|tauto].
      destruct (target_path g); [|tauto].
      destruct (output_path g); [discriminate|tauto].
    + split; [none_of|].
      rewrite !occurrences_app, limit_events_once.
      rewrite (occurrences_none _ (config_events _ _)) by none_of.
      rewrite (occurrences_none _ [_]) by none_of.
      rewrite (occurrences_none _ (pre_check_passed _)) by none_of.
      reflexivity.
  - exfalso.
    destruct Hs as [k1 m k2 Hl | valid | fps0 | fps0 frames0 fps' created valid Hne];
      crack Hin.
Qed.

End RunMore.

(** ** limit_resources, further *)

Section GovernorMore.

Variable W : World.

(** X20.  The process memory limit, as the calls [limit_resources] makes.
    At most one call sets it, and none when [max_memory] is 0.  Off Windows
    the call is [setrlimit] with equal soft and hard values, [max_memory]
    counted in GB, or with the factor [1024 ** 6] on macOS, where the value
    is [2 ** 63] or more as soon as [max_memory] is 8 or more.  On Windows it
    is [SetProcessWorkingSetSize] on the process [-1], always counted in GB
    and wrapped to the width of [size_t]. *)
Theorem limit_resources_memory g h :
  (max_memory g = 0%Z ->
   Forall (fun e => is_memory_limit e = false) (fst (limit_resources W g h)))
  /\ occurrences is_memory_limit (fst (limit_resources W g h)) <= 1
  /\ (forall soft hard,
        In (EvSetrlimit soft hard) (fst (limit_resources W g h)) ->
        hard = soft
        /\ max_memory g <> 0%Z
        /\ lower (platform_system W) <> "windows"
        /\ soft = (max_memory g
                   * (if String.eqb (lower (platform_system W)) "darwin"
                      then 1024 ^ 6 else 1024 ^ 3))%Z
        /\ (lower (platform_system W) = "darwin" ->
            (8 <= max_memory g)%Z -> (2 ^ 63 <= soft)%Z))
  /\ (forall process min max,
        In (EvSetProcessWorkingSetSize process min max) (fst (limit_resources W g h)) ->
        process = (-1)%Z
        /\ max = min
        /\ max_memory g <> 0%Z
        /\ lower (platform_system W) = "windows"
        /\ min = ((max_memory g * 1024 ^ 3) mod 2 ^ size_t_bits W)%Z).
Proof.
  rewrite limit_resources_run. cbn [fst].
  unfold limit_events, memory_events, c_size_t.
  destruct (max_memory g =? 0)%Z eqn:Hz.
  - apply Z.eqb_eq in Hz.
    split; [intros _; none_of|].
    split; [rewrite occurrences_none by none_of; lia|].
    split; [intros soft hard Hin; crack Hin|intros p mn mx Hin; crack Hin].
  - apply Z.eqb_neq in Hz.
    split; [congruence|].
    destruct (String.eqb (lower (platform_system W)) "windows") eqn:Hw.
    + apply String.eqb_eq in Hw. rewrite Hw. cbn [String.eqb Ascii.eqb Bool.eqb].
      cbv zeta.
      split.
      { change (occurrences is_memory_limit (?e :: ?l))
          with (occurrences is_memory_limit l).
        rewrite occurrences_app. rewrite occurrences_none by none_of. cbn. lia. }
      split; [intros soft hard Hin; crack Hin|].
      intros p mn mx Hin. crack Hin. injection Hin as <- <- <-. repeat split.
      exact Hz.
    + apply String.eqb_neq in Hw. cbv zeta.
      destruct (String.eqb (lower (platform_system W)) "darwin") eqn:Hd;
        (split;
         [change (occurrences is_memory_limit (?e :: ?l))
            with (occurrences is_memory_limit l);
          rewrite occurrences_app; rewrite occurrences_none by none_of; cbn; lia|]);
        (split; [|intros p mn mx Hin; crack Hin]);
        intros soft hard Hin; crack Hin; injection Hin as <- <-;
        (split; [reflexivity|]); (split; [exact Hz|]); (split; [exact Hw|]);
        (split; [reflexivity|]); intros Hdarwin H8.
      * change (1024 ^ 6)%Z with (2 ^ 60)%Z.
        change (2 ^ 63)%Z with (8 * 2 ^ 60)%Z. lia.
      * apply String.eqb_neq in Hd. contradiction.
Qed.

(** X21.  The GPU memory cap.  [limit_resources] first asks for the GPU devices
    and then caps each device it was told of at 1024, once, in the order
    they were listed; no other device is configured. *)
Theorem limit_resources_caps_every_gpu g h :
  exists gpus rest,
    fst (limit_resources W g h) = EvListPhysicalDevices "GPU" gpus :: rest
    /\ List.filter is_virtual_device_configuration rest
       = map (fun gpu => EvSetVirtualDeviceConfiguration gpu 1024) gpus
    /\ Forall (fun e => is_limit_resources_call e = false) rest.
Proof.
  rewrite limit_resources_run. cbn [fst]. unfold limit_events.
  eexists _, _. split; [reflexivity|]. split; [|none_of].
  rewrite List.filter_app, (filter_none _ (memory_events _ _)) by none_of.
  rewrite app_nil_r. apply filter_all. none_of.
Qed.

End GovernorMore.

(** ** More sample runs *)

Lemma decode_execution_providers_selects_witness :
  In "CUDAExecutionProvider"
    (decode_execution_providers ["CUDAExecutionProvider"; "CPUExecutionProvider"] ["ud"]).
Proof.
  apply (proj2 (decode_execution_providers_selects
                  ["CUDAExecutionProvider"; "CPUExecutionProvider"] ["ud"]
                  "CUDAExecutionProvider")).
  split; [left; reflexivity|].
  exists "ud". split; [left; reflexivity|].
  exists "c", "a". reflexivity.
Defined.

Lemma decode_ignores_request_order_witness :
  decode_execution_providers ["CUDAExecutionProvider"; "CPUExecutionProvider"]
    ["cpu"; "cuda"]
  = decode_execution_providers ["CUDAExecutionProvider"; "CPUExecutionProvider"]
      ["cuda"; "cpu"; "cuda"].
Proof.
  apply decode_ignores_request_order. intros token. cbn [In]. tauto.
Defined.

Lemma decode_monotone_witness :
  decode_execution_providers ["CUDAExecutionProvider"; "CPUExecutionProvider"] ["cpu"]
  `sublist_of`
  decode_execution_providers ["CUDAExecutionProvider"; "CPUExecutionProvider"]
    ["cuda"; "cpu"].
Proof.
  apply decode_monotone. intros token. cbn [In]. tauto.
Defined.

Lemma decode_edge_requests_witness :
  decode_execution_providers ["CUDAExecutionProvider"; "CPUExecutionProvider"]
    ["tensorrt"; ""]
  = ["CUDAExecutionProvider"; "CPUExecutionProvider"].
Proof.
  apply (proj2 (proj2 (decode_edge_requests
                         ["CUDAExecutionProvider"; "CPUExecutionProvider"]
                         ["tensorrt"; ""]))).
  right. left. reflexivity.
Defined.

Lemma parse_args_respects_choices_witness :
  match snd (parse_args (linux_machine photo_options) [] []) with
  | Returned g =>
      (0 <= temp_frame_quality g <= 100)%Z
      /\ execution_providers g
         `sublist_of` ["CUDAExecutionProvider"; "CPUExecutionProvider"]
  | Exited => False
  end.
Proof.
  destruct (parse_args (linux_machine photo_options) [] []) as [t [g|]] eqn:E;
    cbn [snd].
  - pose proof (parse_args_respects_choices (linux_machine photo_options) [] [] t g E)
      as (_ & Hq & _ & _ & Hs).
    split; [exact Hq|exact Hs].
  - vm_compute in E. discriminate E.
Defined.

Lemma explicit_providers_resolve_witness :
  match snd (parse_args (linux_machine cpu_options) [] []) with
  | Returned g => execution_providers g <> []
  | Exited => False
  end.
Proof.
  destruct (parse_args (linux_machine cpu_options) [] []) as [t [g|]] eqn:E; cbn [snd].
  - apply (proj2 (explicit_providers_resolve (linux_machine cpu_options) [] [] t g
                    cpu_options ["cpu"] E eq_refl eq_refl)).
    discriminate.
  - vm_compute in E. discriminate E.
Defined.

Lemma default_provider_is_cpu_witness :
  match snd (parse_args (linux_machine photo_options) [] []) with
  | Returned g => In "CPUExecutionProvider" (execution_providers g)
  | Exited => False
  end.
Proof.
  destruct (parse_args (linux_machine photo_options) [] []) as [t [g|]] eqn:E;
    cbn [snd].
  - apply (proj1 (default_provider_is_cpu (linux_machine photo_options) [] [] t g
                    photo_options E eq_refl eq_refl)).
    right. left. reflexivity.
  - vm_compute in E. discriminate E.
Defined.

Lemma default_thread_count_witness :
  match snd (parse_args (linux_machine photo_options) [] []) with
  | Returned g => execution_thread_count g = 4%Z \/ execution_thread_count g = 1%Z
  | Exited => False
  end.
Proof.
  destruct (parse_args (linux_machine photo_options) [] []) as [t [g|]] eqn:E;
    cbn [snd].
  - destruct (default_thread_count (linux_machine photo_options) [] [] t g
                photo_options E eq_refl eq_refl) as [[H _]|[H _]]; [left|right]; exact H.
  - vm_compute in E. discriminate E.
Defined.

Lemma image_path_has_no_workspace_witness :
  Forall (fun e => is_video_call e = false) (fst (start photo_world photo_globals [])).
Proof.
  apply (image_path_has_no_workspace photo_world photo_globals [] (Some "photo.jpg")).
  find_event.
Defined.

Lemma image_path_works_on_the_copy_witness :
  occurrences is_copy2 (fst (start photo_world photo_globals [])) = 1.
Proof.
  apply (image_path_works_on_the_copy photo_world photo_globals [] (Some "photo.jpg")).
  find_event.
Defined.

Lemma workspace_cleaned_once_after_use_witness :
  occurrences is_clean_temp (fst (start (clip_world clip_frames true) clip_globals []))
  = 1.
Proof.
  apply (proj2 (proj2 (workspace_cleaned_once_after_use
                         (clip_world clip_frames true) clip_globals [])) clip_frames).
  - discriminate.
  - find_event.
Defined.

Lemma audio_step_is_exclusive_witness :
  skip_audio fixed_rate_globals = true
  /\ skip_audio clip_globals = false.
Proof.
  split.
  - apply (proj1 (audio_step_is_exclusive (clip_world clip_frames true)
                    fixed_rate_globals []) (Some "clip.mp4") (Some "swapped.mp4")).
    find_event.
  - apply (proj2 (audio_step_is_exclusive (clip_world clip_frames true)
                    clip_globals []) (Some "clip.mp4") (Some "swapped.mp4")).
    find_event.
Defined.

Lemma frame_rate_follows_keep_fps_witness :
  (forall target rate,
     ~ In (EvDetectFps target rate)
         (fst (start (clip_world clip_frames true) fixed_rate_globals [])))
  /\ exists rate,
       Some 24%Q = Some rate
       /\ In (EvDetectFps (Some "clip.mp4") rate)
            (fst (start (clip_world clip_frames true) clip_globals [])).
Proof.
  split.
  - apply (proj2 (proj2 (frame_rate_follows_keep_fps
                           (clip_world clip_frames true) fixed_rate_globals []))).
    reflexivity.
  - apply (proj1 (frame_rate_follows_keep_fps
                    (clip_world clip_frames true) clip_globals [])
             (Some "clip.mp4") (Some 24%Q)).
    find_event.
Defined.


Lemma core_pre_check_failure_stops_run_witness :
  Forall (fun e => is_config_event e || is_status_line e = true)
    (trace (run (old_python_machine photo_options) []))
  /\ outcome (run (machine_without_ffmpeg photo_options) []) = Returned tt.
Proof.
  split.
  - apply (proj1 (core_pre_check_failure_stops_run (old_python_machine photo_options) [])).
    reflexivity.
  - apply (proj2 (core_pre_check_failure_stops_run
                    (machine_without_ffmpeg photo_options) []) None).
    + find_event.
    + reflexivity.
Defined.

Lemma ui_is_started_without_paths_witness :
  exists pre g t,
    trace (run (linux_machine no_options) []) = pre ++ [EvUiInit]
    /\ parse_args (linux_machine no_options) [] [] = (t, Returned g)
    /\ headless g = false
    /\ (source_path g = None \/ target_path g = None \/ output_path g = None)
    /\ Forall (fun e => after_pre_check e = false) pre
    /\ occurrences is_limit_resources_call pre = 1.
Proof.
  apply (ui_is_started_without_paths (linux_machine no_options) []). find_event.
Defined.

Lemma limit_resources_memory_witness :
  Forall (fun e => is_memory_limit e = false)
    (fst (limit_resources (windows_machine photo_options) fixed_rate_globals []))
  /\ lower (platform_system (windows_machine photo_options)) = "windows"
  /\ lower (platform_system (linux_machine photo_options)) <> "windows"
  /\ (2 ^ 63 <= 16 * 1024 ^ 6)%Z.
Proof.
  split; [|split; [|split]].
  - apply (proj1 (limit_resources_memory
                    (windows_machine photo_options) fixed_rate_globals [])).
    reflexivity.
  - apply (proj2 (proj2 (proj2
             (limit_resources_memory (windows_machine photo_options) photo_globals [])))
             (-1)%Z 17179869184%Z 17179869184%Z).
    find_event.
  - apply (proj1 (proj2 (proj2
             (limit_resources_memory (linux_machine photo_options) photo_globals [])))
             17179869184%Z 17179869184%Z).
    find_event.
  - apply (proj1 (proj2 (proj2
             (limit_resources_memory (mac_machine photo_options) photo_globals [])))
             (16 * 1024 ^ 6)%Z (16 * 1024 ^ 6)%Z).
    + find_event.
    + reflexivity.
    + discriminate.
Defined.

(** X22.  The verdict of [start] is about the target.  Every validity
    check ([is_image], [is_video]) is made on [target_path] and the last
    line printed is the verdict of that check; unless the output path is the
    target path itself, the output is never checked. *)
Theorem validity_is_checked_on_target W g h path valid :
  In (EvIsImage path valid) (fst (start W g h))
  \/ In (EvIsVideo path valid) (fst (start W g h)) ->
  path = target_path g
  /\ (output_path g <> target_path g ->
      forall v,
        ~ In (EvIsImage (output_path g) v) (fst (start W g h))
        /\ ~ In (EvIsVideo (output_path g) v) (fst (start W g h)))
  /\ exists pre,
       fst (start W g h) = pre ++ [EvIsImage path valid; image_verdict valid]
       \/ fst (start W g h) = pre ++ [EvIsVideo path valid; video_verdict valid].
Proof.
  intros Hin.
  destruct (verdict_follows_target_check W g h path valid Hin) as [Hpath Hlast].
  split; [exact Hpath|]. split; [|exact Hlast].
  intros Hne v. split; intros Hc.
  - now destruct (verdict_follows_target_check W g h (output_path g) v (or_introl Hc)).
  - now destruct (verdict_follows_target_check W g h (output_path g) v (or_intror Hc)).
Qed.

Lemma validity_is_checked_on_target_witness :
  Some "photo.jpg" = target_path photo_globals
  /\ forall v,
       ~ In (EvIsImage (Some "swapped.dat") v) (fst (start photo_world photo_globals []))
       /\ ~ In (EvIsVideo (Some "swapped.dat") v)
            (fst (start photo_world photo_globals [])).
Proof.
  assert (In (EvIsImage (Some "photo.jpg") true) (fst (start photo_world photo_globals []))
          \/ In (EvIsVideo (Some "photo.jpg") true)
               (fst (start photo_world photo_globals []))) as H
    by (left; find_event).
  destruct (validity_is_checked_on_target photo_world photo_globals []
              (Some "photo.jpg") true H) as (Hp & Hout & _).
  split; [exact Hp|]. apply Hout. discriminate.
Defined.

(** ** Interruption *)

Section Interruption.

Variable W : World.

(** Every run begins by installing the handler. *)
Lemma run_installs_handler_first argv :
  exists rest, trace (run W argv) = EvSignal :: rest.
Proof.
  unfold trace. pose proof (run_sound W argv []) as Hr.
  destruct (run W argv []) as [tr o]. cbn [fst snd] in *.
  destruct Hr; unfold config_events; cbn [app]; eexists; reflexivity.
Qed.

Lemma handler_installed_after_first_event argv n :
  1 <= n -> handler_installed (firstn n (trace (run W argv))) = true.
Proof.
  intros Hn. destruct (run_installs_handler_first argv) as [rest ->].
  destruct n as [|n]; [lia|]. reflexivity.
Qed.

(** The signal always ends the process: through [destroy] when the handler
    is installed, through the uncaught [KeyboardInterrupt] before. *)
Lemma deliver_sigint_exits current before : snd (deliver_sigint current before) = Exited.
Proof.
  unfold deliver_sigint, sigint_handler, sys_exit.
  destruct (handler_installed before); [|reflexivity].
  now rewrite (proj1 (destroy_cleans_then_exits W)).
Qed.

(** C9. SIGINT during a run, at any moment after line 28: the handler,
    [destroy], runs on [roop.globals] as they are then, calls [clean_temp] on
    the target path when one is set (not [None], not empty) and then leaves
    through [sys.exit]: the events of the interrupted run are those that had
    happened, followed by that one call at most, and the process ends.  It
    asks nothing about the workspace, so the call is made whether or not
    [create_temp] has happened.  For a job from the command line the target
    it cleans is the job's, from line 55 on. *)
Theorem sigint_discards_workspace_then_exits initial argv n line_55_done current :
  1 <= n ->
  target_path current = current_target W initial argv n line_55_done ->
  run_interrupted W argv n current
  = (firstn n (trace (run W argv))
       ++ (if truthy (target_path current)
           then [EvCleanTemp (target_path current)] else []),
     Exited)
  /\ (forall t g,
        parse_args W argv [] = (t, Returned g) ->
        2 <= n \/ line_55_done = true ->
        target_path current = target_path g
        /\ (truthy (target_path g) = true ->
            run_interrupted W argv n current
            = (firstn n (trace (run W argv)) ++ [EvCleanTemp (target_path g)],
               Exited))).
Proof.
  intros Hn Hcur.
  assert (run_interrupted W argv n current
          = (firstn n (trace (run W argv))
               ++ (if truthy (target_path current)
                   then [EvCleanTemp (target_path current)] else []),
             Exited)) as Hrun.
  { unfold run_interrupted, deliver_sigint, sigint_handler.
    rewrite (handler_installed_after_first_event argv n Hn).
    now rewrite (proj1 (destroy_cleans_then_exits W)). }
  split; [exact Hrun|].
  intros t g Hp Hwhen.
  assert (target_path current = target_path g) as Htarget.
  { rewrite Hcur. unfold current_target.
    destruct (parse_args_settings W argv [] t g Hp)
      as (cl & -> & -> & _ & -> & _).
    assert (line_55_done || Nat.leb 2 n = true) as ->.
    { destruct Hwhen as [H2| ->]; [|reflexivity].
      apply orb_true_iff. right. now apply Nat.leb_le. }
    reflexivity. }
  split; [exact Htarget|].
  intros Hset. rewrite Hrun, Htarget, Hset. reflexivity.
Qed.

End Interruption.

(** The signal arrives in the middle of the video job, while the second
    stage has the frames, and at the very beginning of it, before there is a
    workspace. *)
Lemma sigint_discards_workspace_then_exits_witness :
  run_interrupted (clip_world clip_frames true) clip_argv 20 clip_globals
  = (firstn 20 (trace (run (clip_world clip_frames true) clip_argv))
       ++ [EvCleanTemp (Some "clip.mp4")], Exited)
  /\ run_interrupted (clip_world clip_frames true) clip_argv 2 clip_globals
     = ([ EvSignal;
          EvNormalizeOutputPath (Some "face.png") (Some "clip.mp4")
            (Some "swapped.mp4") (Some "swapped.mp4");
          EvCleanTemp (Some "clip.mp4") ], Exited).
Proof.
  split.
  - apply (proj2 (sigint_discards_workspace_then_exits
                    (clip_world clip_frames true) None clip_argv 20 true clip_globals
                    ltac:(lia) eq_refl)
             _ clip_globals (clip_settings clip_frames true)).
    + left. lia.
    + reflexivity.
  - apply (proj2 (sigint_discards_workspace_then_exits
                    (clip_world clip_frames true) None clip_argv 2 false clip_globals
                    ltac:(lia) eq_refl)
             _ clip_globals (clip_settings clip_frames true)).
    + left. lia.
    + reflexivity.
Defined.

Example interrupted_while_enhancing :
  firstn 20 (trace (run (clip_world clip_frames true) clip_argv))
  = [ EvSignal;
      EvNormalizeOutputPath (Some "face.png") (Some "clip.mp4")
        (Some "swapped.mp4") (Some "swapped.mp4");
      EvWhich "ffmpeg" (Some "/usr/bin/ffmpeg");
      EvPreCheck "face_swapper" true;
      EvPreCheck "face_enhancer" true;
      EvListPhysicalDevices "GPU" [];
      EvSetrlimit 17179869184 17179869184;
      EvPreStart "face_swapper" true;
      EvPreStart "face_enhancer" true;
      EvHasImageExtension (Some "clip.mp4") false;
      EvPrint "[ROOP.CORE] Creating temporary resources...";
      EvCreateTemp (Some "clip.mp4");
      EvDetectFps (Some "clip.mp4") 24%Q;
      EvPrint "[ROOP.CORE] Extracting frames with 24.0 FPS...";
      EvExtractFrames (Some "clip.mp4") (Some 24%Q);
      EvGetTempFramePaths (Some "clip.mp4") clip_frames;
      EvPrint "[face_swapper] Progressing...";
      EvProcessVideo "face_swapper" (Some "face.png") clip_frames;
      EvPostProcess "face_swapper";
      EvPrint "[face_enhancer] Progressing..." ].
Proof. vm_compute. reflexivity. Qed.
